(** * A shallow embedding of the repository/service core of the backend

    The development follows the layering of the sources:
    [app/repositories/base.py] (generic repository), [app/repositories/address.py],
    [app/repositories/user.py], [app/core/security.py], [app/services/address.py],
    [app/services/users.py] and [app/api/deps.py].

    Conventions of the embedding.
    - A mapped instance is an attribute map ([gmap string Value]); a table is a
      finite map from identity keys to rows.  The row stored under key [k]
      carries its primary key in the column ["id"] (see [pk_ok]).
    - The session is configured with [autoflush=False] and
      [expire_on_commit=False] ([app/core/db.py]): a SELECT is evaluated on the
      rows of the table, attribute writes stay in the session until [commit]
      flushes them, and instances are never expired.
    - The store accepts every flush: integrity errors raised by the database
      engine are not part of the embedding.
    - [datetime.utcnow()], [uuid.uuid4()] and [bcrypt.gensalt()] are inputs of
      the functions that call them. *)

From Stdlib Require Import ZArith Lia.
From stdpp Require Import base option list gmap strings fin_maps.

Open Scope string_scope.

(** ** Values and instances *)

(** Column values: [None], [bool], [int], [str], [uuid.UUID], [datetime]. *)
Inductive Value : Type :=
  | VNone
  | VBool (b : bool)
  | VInt (n : Z)
  | VStr (s : string)
  | VUuid (u : N)
  | VDatetime (t : Z).

#[global] Instance Value_eq_dec : EqDecision Value.
Proof. solve_decision. Defined.

(** Python truth value of an attribute ([if addr.is_default], [if not user.is_active]). *)
Definition truthy (v : Value) : bool :=
  match v with
  | VNone => false
  | VBool b => b
  | VInt n => negb (n =? 0)%Z
  | VStr s => negb (String.eqb s "")
  | VUuid _ => true
  | VDatetime _ => true
  end.

(** [v is None] *)
Definition is_none (v : Value) : bool :=
  match v with VNone => true | _ => false end.

(** Attribute read on an instance; a mapped instance carries every column of
    its class, an absent column reads as NULL. *)
Definition attr (e : gmap string Value) (a : string) : Value :=
  default VNone (e !! a).

(** A mapped class: its name and the column attributes [hasattr] finds on
    it.  An instance of the class has the attributes of the class, so
    [hasattr(db_obj, a)] is decided on the class as well. *)
Record Model : Type := mkModel {
  model_name : string;
  model_attrs : list string
}.

Definition hasattr (model : Model) (key : string) : bool :=
  bool_decide (key ∈ model_attrs model).

(** ** Exceptions and results *)

Module status.
Definition HTTP_400_BAD_REQUEST : Z := 400.
Definition HTTP_401_UNAUTHORIZED : Z := 401.
Definition HTTP_403_FORBIDDEN : Z := 403.
Definition HTTP_404_NOT_FOUND : Z := 404.
End status.

Inductive Exception : Type :=
  | HTTPException (status_code : Z) (detail : string)
  | ValueError (msg : string)
  | AttributeError (msg : string)
  | MultipleResultsFound.

#[global] Instance Exception_eq_dec : EqDecision Exception.
Proof. solve_decision. Defined.

Inductive Result (A : Type) : Type :=
  | Ok (a : A)
  | Raise (e : Exception).
Arguments Ok {A} a.
Arguments Raise {A} e.

(** ** The session *)

(** [rows]: the table as the database holds it.  [pending]: the attribute
    state of the instances the session has written to or added and not yet
    flushed, by identity key. *)
Record Session : Type := mkSession {
  rows : gmap N (gmap string Value);
  pending : gmap N (gmap string Value)
}.

(** The instance the session hands out for key [k]: its pending state if it
    has one, else the row. *)
Definition instance (s : Session) (k : N) : option (gmap string Value) :=
  (pending s ∪ rows s) !! k.

Definition getattr (s : Session) (k : N) (a : string) : Value :=
  match instance s k with
  | Some e => attr e a
  | None => VNone
  end.

(** [obj.a = v] on the instance with key [k]; references are only obtained
    from the session, so the instance exists. *)
Definition setattr (s : Session) (k : N) (a : string) (v : Value) : Session :=
  match instance s k with
  | Some e => mkSession (rows s) (<[k := <[a := v]> e]> (pending s))
  | None => s
  end.

(** [session.add(obj)] for an instance the session already tracks. *)
Definition add (s : Session) (k : N) : Session := s.

(** [session.add(obj)] for a new instance. *)
Definition add_new (s : Session) (k : N) (e : gmap string Value) : Session :=
  mkSession (rows s) (<[k := e]> (pending s)).

(** [session.commit()]: flush every pending instance state to its row. *)
Definition commit (s : Session) : Session :=
  mkSession (pending s ∪ rows s) ∅.

(** [session.refresh(obj)]: reload the attributes from the row. *)
Definition refresh (s : Session) (k : N) : Session :=
  mkSession (rows s) (delete k (pending s)).

(** [session.get(Model, k)]: identity lookup, unfiltered. *)
Definition session_get (s : Session) (k : N) : option N :=
  match instance s k with
  | Some _ => Some k
  | None => None
  end.

(** *** Statements *)

(** A SELECT is the conjunction of its WHERE clauses over a row. *)
Definition Query : Type := gmap string Value → bool.

Definition select : Query := λ _, true.

Definition where_ (q : Query) (clause : gmap string Value → bool) : Query :=
  λ r, q r && clause r.

(** [column.is_(None)] *)
Definition is_null (a : string) : gmap string Value → bool :=
  λ r, is_none (attr r a).

(** [column == value] *)
Definition col_eq (a : string) (v : Value) : gmap string Value → bool :=
  λ r, bool_decide (attr r a = v).

(** [Address.is_default] used as a boolean clause. *)
Definition col_true (a : string) : gmap string Value → bool :=
  λ r, bool_decide (attr r a = VBool true).

(** [session.execute(query)] followed by [.scalars().all()]: the keys of the
    rows the database selects.  No statement of the repository has an ORDER
    BY; the order is the one the table yields its rows in. *)
Definition execute (s : Session) (q : Query) : list N :=
  (map_to_list (filter (λ kr, Is_true (q kr.2)) (rows s))).*1.

(** [select(func.count())] with the same clauses. *)
Definition execute_count (s : Session) (q : Query) : nat :=
  size (filter (λ kr, Is_true (q kr.2)) (rows s)).

Definition scalar_one_or_none (l : list N) : Result (option N) :=
  match l with
  | [] => Ok None
  | [k] => Ok (Some k)
  | _ => Raise MultipleResultsFound
  end.

(** ** State and exceptions *)

Definition M (A : Type) : Type := Session → Result A * Session.

Definition ret {A} (a : A) : M A := λ s, (Ok a, s).
Definition raise {A} (e : Exception) : M A := λ s, (Raise e, s).
Definition bind {A B} (m : M A) (f : A → M B) : M B :=
  λ s, match m s with
       | (Ok a, s') => f a s'
       | (Raise e, s') => (Raise e, s')
       end.
Definition query {A} (f : Session → Result A) : M A := λ s, (f s, s).
Definition modify (f : Session → Session) : M unit := λ s, (Ok tt, f s).

Notation "'do' x <- m ; k" := (bind m (λ x, k))
  (at level 10, x name, m at level 100, k at level 200, only parsing).
Notation "'run' m ; k" := (bind m (λ _, k))
  (at level 10, m at level 100, k at level 200, only parsing).

(** ** app/repositories/base.py *)

(** The payload of [update]: a plain dict, or a schema instance with the set of
    fields that were explicitly provided ([model_fields_set]).  The update
    schemas of the repository declare fields of the mapped class only. *)
Inductive UpdateData : Type :=
  | DictIn (d : gmap string Value)
  | SchemaIn (values : gmap string Value) (model_fields_set : gset string).

(** [obj_in.model_dump(exclude_unset=True)] *)
Definition model_dump_exclude_unset (values : gmap string Value)
    (model_fields_set : gset string) : gmap string Value :=
  filter (λ av, av.1 ∈ model_fields_set) values.

(** [Schema.model_validate(obj)] with [from_attributes]: the attributes of the
    instance that are fields of the schema. *)
Definition model_validate (schema : list string) (s : Session) (k : N)
    : gmap string Value :=
  filter (λ av, av.1 ∈ schema) (default ∅ (instance s k)).

Module BaseRepo.

Definition _base_query (model : Model) : Query :=
  let query := select in
  if hasattr model "deleted_at" then where_ query (is_null "deleted_at")
  else query.

Definition get (model : Model) (id : N) (s : Session) : Result (option N) :=
  let query := where_ (_base_query model) (col_eq "id" (VUuid id)) in
  scalar_one_or_none (execute s query).

(** [filters] is the dict's [items()], or [None]; [if filters:] is false for
    [None] and for the empty dict.  [offset(skip).limit(limit)] keeps [limit]
    rows after the first [skip]; the route passes [page >= 1] and
    [1 <= page_size <= 100], so both are natural numbers. *)
Definition get_listing (model : Model) (skip limit : nat)
    (filters : option (list (string * Value))) (s : Session) : list N :=
  let query := _base_query model in
  let query :=
    match filters with
    | Some ((_ :: _) as items) =>
        foldl (λ query kv,
                 if negb (is_none kv.2) && hasattr model kv.1
                 then where_ query (col_eq kv.1 kv.2)
                 else query) query items
    | _ => query
    end in
  take limit (drop skip (execute s query)).

Definition get_count (model : Model)
    (filters : option (list (string * Value))) (s : Session) : nat :=
  let query := select in
  let query :=
    if hasattr model "deleted_at" then where_ query (is_null "deleted_at")
    else query in
  let query :=
    match filters with
    | Some ((_ :: _) as items) =>
        foldl (λ query kv,
                 if negb (is_none kv.2) && hasattr model kv.1
                 then where_ query (col_eq kv.1 kv.2)
                 else query) query items
    | _ => query
    end in
  let result := execute_count s query in
  if (result =? 0)%nat then 0%nat else result.

(** The fields of [update_data] are distinct, so the order in which the loop
    assigns them does not matter; [map_fold] visits each once. *)
Definition update (model : Model) (now : Z) (db_obj : N) (obj_in : UpdateData)
    : M N :=
  λ s,
  if hasattr model "deleted_at" && negb (is_none (getattr s db_obj "deleted_at"))
  then raise (HTTPException status.HTTP_404_NOT_FOUND
                "Record not found or has been deleted") s
  else
    let update_data :=
      match obj_in with
      | DictIn d => d
      | SchemaIn values model_fields_set =>
          model_dump_exclude_unset values model_fields_set
      end in
    let s := map_fold (λ field value s, setattr s db_obj field value)
               s update_data in
    let s := if hasattr model "updated_at"
             then setattr s db_obj "updated_at" (VDatetime now) else s in
    let s := add s db_obj in
    let s := commit s in
    let s := refresh s db_obj in
    (Ok db_obj, s).

Definition soft_delete (model : Model) (now : Z) (id : N) : M N :=
  if negb (hasattr model "deleted_at")
  then raise (ValueError
                (model_name model +:+ " does not support soft delete. "
                 +:+ "Add 'deleted_at: datetime | None' field to enable."))
  else
    do db_obj <- query (get model id);
    match db_obj with
    | None =>
        raise (HTTPException status.HTTP_404_NOT_FOUND
                 (model_name model +:+ " not found"))
    | Some db_obj =>
        run modify (λ s, setattr s db_obj "deleted_at" (VDatetime now));
        run modify (λ s, add s db_obj);
        run modify commit;
        ret db_obj
    end.

End BaseRepo.

(** ** app/models/models.py *)

Definition UserBase : list string :=
  ["email"; "full_name"; "phone_number"; "is_active"; "is_verified"; "role"].

Definition User : Model :=
  mkModel "User"
    (UserBase ++ ["id"; "created_at"; "updated_at"; "last_login";
                  "deleted_at"; "hashed_password"]).

Definition UserPublic : list string :=
  UserBase ++ ["id"; "created_at"; "updated_at"; "last_login"].

Definition AddressBase : list string :=
  ["street_address"; "apartment"; "city"; "county"; "postal_code";
   "is_default"; "delivery_instructions"].

Definition Address : Model :=
  mkModel "Address"
    (AddressBase ++ ["id"; "owner_id"; "created_at"; "updated_at"; "deleted_at"]).

Definition AddressPublic : list string :=
  AddressBase ++ ["id"; "owner_id"; "created_at"; "updated_at"].

(** [UserCreate] / [UserRegister]: the password and the other fields, as
    [model_dump(exclude={"password"})] returns them. *)
Record UserCreate : Type := mkUserCreate {
  user_fields : gmap string Value;
  password : string
}.

(** The constructor of [User]: the keyword arguments over the column
    defaults. *)
Definition User_init (new_id : N) (created_at updated_at : Z)
    (kwargs : gmap string Value) : gmap string Value :=
  kwargs ∪
  list_to_map
    [("full_name", VNone); ("phone_number", VNone);
     ("is_active", VBool true); ("is_verified", VBool false);
     ("role", VStr "customer"); ("id", VUuid new_id);
     ("created_at", VDatetime created_at); ("updated_at", VDatetime updated_at);
     ("last_login", VNone); ("deleted_at", VNone)].

Record TokenPayload : Type := mkTokenPayload {
  sub : option N;
  exp : option Z
}.

(** ** app/core/security.py *)

(** The [bcrypt] primitives.  [checkpw] answers [None] when it raises. *)
Class Bcrypt : Type := {
  checkpw : string → string → option bool;
  hashpw : string → string → string
}.

(** A password checks against a hash made from it. *)
Class BcryptSound (B : Bcrypt) : Prop :=
  checkpw_hashpw : ∀ password salt, checkpw password (hashpw password salt) = Some true.

(** The decoder of bearer tokens: [jwt.decode] followed by
    the construction of [TokenPayload]; [None] stands for [JWTError] or
    [ValidationError]. *)
Class Jwt : Type := {
  decode : string → option TokenPayload
}.

Module security.

(** Strings stand for their UTF-8 encoding; bcrypt reads 72 bytes. *)
Definition truncate (password_bytes : string) : string :=
  if (72 <? String.length password_bytes)%nat
  then String.substring 0 72 password_bytes
  else password_bytes.

Definition verify_password `{Bcrypt} (plain_password : string)
    (hashed_password : Value) : bool :=
  match hashed_password with
  | VStr hashed =>
      match checkpw (truncate plain_password) hashed with
      | Some b => b
      | None => false
      end
  | _ => false
  end.

Definition get_password_hash `{Bcrypt} (salt : string) (password : string)
    : string :=
  hashpw (truncate password) salt.

End security.

(** ** app/repositories/address.py *)

Module AddressRepo.

Definition get_by_owner (owner_id : N) (s : Session) : list N :=
  let statement :=
    where_ (where_ select (col_eq "owner_id" (VUuid owner_id)))
           (is_null "deleted_at") in
  execute s statement.

Definition get_default (owner_id : N) (s : Session) : Result (option N) :=
  let statement :=
    where_ (where_ (where_ select (is_null "deleted_at"))
                   (col_eq "owner_id" (VUuid owner_id)))
           (col_true "is_default") in
  scalar_one_or_none (execute s statement).

Definition clear_default (owner_id : N) : M unit :=
  λ s,
  let addresses := get_by_owner owner_id s in
  let s :=
    foldl (λ s addr,
             if truthy (getattr s addr "is_default")
             then add (setattr s addr "is_default" (VBool false)) addr
             else s) s addresses in
  (Ok tt, s).

Definition set_default (address_id owner_id : N) : M N :=
  run clear_default owner_id;
  do address <- query (BaseRepo.get Address address_id);
  match address with
  | None =>
      raise (AttributeError "'NoneType' object has no attribute 'is_default'")
  | Some address =>
      run modify (λ s, setattr s address "is_default" (VBool true));
      run modify (λ s, add s address);
      run modify commit;
      run modify (λ s, refresh s address);
      ret address
  end.

End AddressRepo.

(** ** app/repositories/user.py *)

Module UserRepo.

Definition create_user `{Bcrypt} (new_id : N) (created_at updated_at : Z)
    (salt : string) (user_in : UserCreate) : M N :=
  let db_obj :=
    User_init new_id created_at updated_at
      (<["hashed_password" :=
           VStr (security.get_password_hash salt (password user_in))]>
         (user_fields user_in)) in
  run modify (λ s, add_new s new_id db_obj);
  run modify commit;
  run modify (λ s, refresh s new_id);
  ret new_id.

Definition get_user_by_email (email : Value) (s : Session) : Result (option N) :=
  let query :=
    where_ (where_ select (col_eq "email" email)) (is_null "deleted_at") in
  scalar_one_or_none (execute s query).

Definition update_password `{Bcrypt} (salt : string) (now : Z) (db_obj : N)
    (new_password : string) : M N :=
  run modify (λ s, setattr s db_obj "hashed_password"
                     (VStr (security.get_password_hash salt new_password)));
  run modify (λ s, setattr s db_obj "updated_at" (VDatetime now));
  run modify (λ s, add s db_obj);
  run modify commit;
  ret db_obj.

End UserRepo.

(** ** app/services/address.py *)

Module AddressService.

Definition get_address (address_id owner_id : N) : M (gmap string Value) :=
  do address <- query (BaseRepo.get Address address_id);
  match address with
  | None =>
      raise (HTTPException status.HTTP_404_NOT_FOUND "Address not found")
  | Some address =>
      λ s,
      if negb (bool_decide (getattr s address "owner_id" = VUuid owner_id))
      then raise (HTTPException status.HTTP_404_NOT_FOUND "Address not found") s
      else ret (model_validate AddressPublic s address) s
  end.

Definition set_default (address_id owner_id : N) : M (gmap string Value) :=
  do address <- AddressRepo.set_default address_id owner_id;
  λ s, ret (model_validate AddressPublic s address) s.

End AddressService.

(** ** app/services/users.py *)

Module UserService.

Definition create_user `{Bcrypt} (new_id : N) (created_at updated_at : Z)
    (salt : string) (user_in : UserCreate) : M (gmap string Value) :=
  do user <- query (UserRepo.get_user_by_email (attr (user_fields user_in) "email"));
  match user with
  | Some _ =>
      raise (HTTPException status.HTTP_400_BAD_REQUEST
               "A user with this email already exists")
  | None =>
      do user <- UserRepo.create_user new_id created_at updated_at salt user_in;
      λ s, ret (model_validate UserPublic s user) s
  end.

Definition change_password `{Bcrypt} (salt : string) (now : Z) (user : N)
    (old_password new_password : string) : M unit :=
  λ s,
  if negb (security.verify_password old_password (getattr s user "hashed_password"))
  then raise (HTTPException status.HTTP_400_BAD_REQUEST "Incorrect password") s
  else if security.verify_password new_password (getattr s user "hashed_password")
  then raise (HTTPException status.HTTP_400_BAD_REQUEST
                "New password cannot be same as current") s
  else (run UserRepo.update_password salt now user new_password; ret tt) s.

End UserService.

(** ** app/api/deps.py *)

Module deps.

Definition get_current_user `{Jwt} (token : string) (s : Session) : Result N :=
  match decode token with
  | None =>
      Raise (HTTPException status.HTTP_403_FORBIDDEN
               "Could not validate credentials")
  | Some token_data =>
      match sub token_data ≫= session_get s with
      | None => Raise (HTTPException status.HTTP_404_NOT_FOUND "User not found")
      | Some user =>
          if negb (truthy (getattr s user "is_active"))
          then Raise (HTTPException status.HTTP_400_BAD_REQUEST "Inactive user")
          else Ok user
      end
  end.

End deps.

(** ** Notions used by the statements *)

(** The primary-key constraint of a table: the row under key [k] has [id = k]. *)
Definition pk_ok (t : gmap N (gmap string Value)) : Prop :=
  ∀ k r, t !! k = Some r → attr r "id" = VUuid k.

(** The addresses of an owner that read as default, as
    [tests/repos/test_address_repo.py] collects them:
    [[a for a in addresses if a.is_default]] over [get_by_owner]. *)
Definition default_addresses (owner_id : N) (s : Session) : list N :=
  filter (λ a, Is_true (truthy (getattr s a "is_default")))
         (AddressRepo.get_by_owner owner_id s).

(** What [clear_default] does to one instance. *)
Definition cleared (e : gmap string Value) : gmap string Value :=
  if truthy (attr e "is_default") then <["is_default" := VBool false]> e else e.

(** One iteration of the loop of [clear_default]. *)
Definition clear_step (s : Session) (addr : N) : Session :=
  if truthy (getattr s addr "is_default")
  then add (setattr s addr "is_default" (VBool false)) addr
  else s.


(** The fields a payload of [update] provides explicitly. *)
Definition provided (obj_in : UpdateData) : gmap string Value :=
  match obj_in with
  | DictIn d => d
  | SchemaIn values model_fields_set =>
      model_dump_exclude_unset values model_fields_set
  end.

(** The rows a listing or a count with the given filters is about: live
    when the class has [deleted_at], and equal to the filter on every entry
    whose value is not [None] and whose key is an attribute of the class. *)
Definition selected (model : Model) (filters : option (list (string * Value)))
    (r : gmap string Value) : bool :=
  (if hasattr model "deleted_at" then is_none (attr r "deleted_at") else true)
  && forallb (λ kv, if negb (is_none kv.2) && hasattr model kv.1
                    then bool_decide (attr r kv.1 = kv.2) else true)
             (default [] filters).

(** An attribute of a returned DTO, if the call returned. *)
Definition result_attr (r : Result (gmap string Value)) (a : string)
    : option Value :=
  match r with
  | Ok dto => Some (attr dto a)
  | Raise _ => None
  end.

(** ** Fixtures, after [tests/utils] *)

Module Fixtures.

Definition address (id owner_id : N) (is_default : bool) (deleted_at : Value)
    : gmap string Value :=
  list_to_map
    [("id", VUuid id); ("owner_id", VUuid owner_id);
     ("street_address", VStr "123 Test Street"); ("city", VStr "Nairobi");
     ("county", VStr "Nairobi"); ("is_default", VBool is_default);
     ("created_at", VDatetime 0); ("updated_at", VDatetime 0);
     ("deleted_at", deleted_at)].

(** Owner 10 has a default address, a second address and a soft-deleted
    one; owner 20 has one address. *)
Definition addresses : Session :=
  mkSession
    (list_to_map
       [(1%N, address 1 10 true VNone); (2%N, address 2 10 false VNone);
        (3%N, address 3 20 false VNone); (4%N, address 4 10 true (VDatetime 5))])
    ∅.

(** Owner 10 holds the default address 1 and owner 20 the default address 3;
    address 5 of owner 20 is not default. *)
Definition two_owners : Session :=
  mkSession
    (list_to_map
       [(1%N, address 1 10 true VNone); (3%N, address 3 20 true VNone);
        (5%N, address 5 20 false VNone)])
    ∅.

Definition user (id : N) (email : string) (hashed_password : string)
    (is_active : bool) (deleted_at : Value) : gmap string Value :=
  list_to_map
    [("id", VUuid id); ("email", VStr email); ("full_name", VNone);
     ("phone_number", VNone); ("is_active", VBool is_active);
     ("is_verified", VBool false); ("role", VStr "customer");
     ("created_at", VDatetime 0); ("updated_at", VDatetime 0);
     ("last_login", VNone); ("deleted_at", deleted_at);
     ("hashed_password", VStr hashed_password)].

(** User 1 is live and active, user 2 is active and soft-deleted, user 3 is
    live and inactive. *)
Definition users : Session :=
  mkSession
    (list_to_map
       [(1%N, user 1 "a@x.com" "$2b$pw12345678" true VNone);
        (2%N, user 2 "b@x.com" "$2b$pw12345678" true (VDatetime 5));
        (3%N, user 3 "c@x.com" "$2b$pw12345678" false VNone)])
    ∅.

(** A stand-in for bcrypt: the hash is a prefix and the password. *)
#[local] Instance bcrypt : Bcrypt := {|
  checkpw password hashed := Some (String.eqb ("$2b$" +:+ password) hashed);
  hashpw password salt := "$2b$" +:+ password
|}.

(** A stand-in for the token decoder: the token [user-k] carries subject [k]. *)
#[local] Instance jwt : Jwt := {|
  decode token :=
    if String.eqb token "user-1" then Some (mkTokenPayload (Some 1%N) (Some 100%Z))
    else if String.eqb token "user-2" then Some (mkTokenPayload (Some 2%N) (Some 100%Z))
    else if String.eqb token "user-3" then Some (mkTokenPayload (Some 3%N) (Some 100%Z))
    else if String.eqb token "user-9" then Some (mkTokenPayload (Some 9%N) (Some 100%Z))
    else None
|}.

(** The model of [tests/repos/test_base_repo.py], and a model without the
    soft-delete column. *)
Definition DummyModel : Model :=
  mkModel "DummyModel" ["id"; "name"; "value"; "updated_at"; "deleted_at"].

Definition Plain : Model := mkModel "Plain" ["id"; "name"].

Definition dummy (id : N) (name : string) (value : Z) (deleted_at : Value)
    : gmap string Value :=
  list_to_map
    [("id", VUuid id); ("name", VStr name); ("value", VInt value);
     ("updated_at", VNone); ("deleted_at", deleted_at)].

Definition dummies : Session :=
  mkSession
    (list_to_map
       [(1%N, dummy 1 "a" 1 VNone); (2%N, dummy 2 "b" 2 VNone);
        (3%N, dummy 3 "c" 1 VNone); (4%N, dummy 4 "d" 1 (VDatetime 7))])
    ∅.

End Fixtures.

(** * The rest of the repositories, services and routes *)

(** [session.delete(obj)]: the row goes at the next flush; the one caller
    commits at once, so the removal is applied to the table here. *)
Definition session_delete (s : Session) (k : N) : Session :=
  mkSession (delete k (rows s)) (delete k (pending s)).

Module schemas.

(** The constructor of [Address]: the keyword arguments over the column
    defaults. *)
Definition Address_init (new_id : N) (created_at updated_at : Z)
    (kwargs : gmap string Value) : gmap string Value :=
  kwargs ∪
  list_to_map
    [("street_address", VNone); ("apartment", VNone); ("city", VNone);
     ("county", VNone); ("postal_code", VNone); ("is_default", VBool false);
     ("delivery_instructions", VNone); ("id", VUuid new_id);
     ("created_at", VDatetime created_at); ("updated_at", VDatetime updated_at);
     ("deleted_at", VNone)].

Record AddressesPublic : Type := mkAddressesPublic {
  addresses : list (gmap string Value);
  count : nat
}.

Record UserFilters : Type := mkUserFilters {
  is_active : Value;
  is_verified : Value;
  role : Value
}.

Record PaginationMeta : Type := mkPaginationMeta {
  total : Z;
  page : Z;
  page_size : Z;
  total_pages : Z
}.

Record UsersPublic : Type := mkUsersPublic {
  users : list (gmap string Value);
  pagination : PaginationMeta
}.

End schemas.

(** ** app/repositories/base.py, hard delete *)

Module BaseRepo_delete.

Definition delete (model : Model) (id : N) : M bool :=
  do obj <- query (BaseRepo.get model id);
  match obj with
  | Some obj =>
      run modify (λ s, session_delete s obj);
      run modify commit;
      ret true
  | None => ret false
  end.

End BaseRepo_delete.

(** ** app/repositories/address.py, creation *)

Module AddressRepo_create.

(** [address_in] is [address_in.model_dump()]: every field of [AddressBase]. *)
Definition create_address (new_id : N) (created_at updated_at : Z)
    (owner_id : N) (address_in : gmap string Value) : M N :=
  let db_obj :=
    schemas.Address_init new_id created_at updated_at
      (<["owner_id" := VUuid owner_id]> address_in) in
  run modify (λ s, add_new s new_id db_obj);
  run modify commit;
  run modify (λ s, refresh s new_id);
  ret new_id.

End AddressRepo_create.

(** ** app/repositories/user.py, listing *)

Module UserRepo_list.

Definition list_users (skip limit : nat)
    (filters : option (list (string * Value))) (s : Session) : list N * Z :=
  let users := BaseRepo.get_listing User skip limit filters s in
  let total := BaseRepo.get_count User filters s in
  (users, Z.of_nat total).

End UserRepo_list.

(** ** app/services/address.py, the other operations *)

Module AddressService_rest.

Definition create_address (new_id : N) (created_at updated_at : Z)
    (owner_id : N) (address_in : gmap string Value) : M (gmap string Value) :=
  do address <- AddressRepo_create.create_address new_id created_at updated_at
                  owner_id address_in;
  λ s, ret (model_validate AddressPublic s address) s.

Definition list_user_addresses (owner_id : N) (s : Session)
    : schemas.AddressesPublic :=
  let addresses := AddressRepo.get_by_owner owner_id s in
  let addresses := map (model_validate AddressPublic s) addresses in
  let count := length addresses in
  schemas.mkAddressesPublic addresses count.

(** [address_in] is an [AddressUpdate]: its field values (defaults included)
    and the set of fields that were provided. *)
Definition update_address (now : Z) (address_id owner_id : N)
    (values : gmap string Value) (model_fields_set : gset string)
    : M (gmap string Value) :=
  do address <- query (BaseRepo.get Address address_id);
  match address with
  | None =>
      raise (HTTPException status.HTTP_404_NOT_FOUND "Address not found")
  | Some address =>
      λ s,
      if negb (bool_decide (getattr s address "owner_id" = VUuid owner_id))
      then raise (HTTPException status.HTTP_404_NOT_FOUND "Address not found") s
      else
        (run (if truthy (attr values "is_default")
              then AddressRepo.clear_default owner_id else ret tt);
         do address <- BaseRepo.update Address now address
                         (SchemaIn values model_fields_set);
         λ s, ret (model_validate AddressPublic s address) s) s
  end.

(** [address.id] is read from the returned [AddressPublic], which declares
    it as a UUID (a value of another type fails validation, a
    [ValueError]). *)
Definition delete_address (now : Z) (address_id owner_id : N) : M unit :=
  do address <- AddressService.get_address address_id owner_id;
  match attr address "id" with
  | VUuid id => run BaseRepo.soft_delete Address now id; ret tt
  | _ => raise (ValueError "id: UUID input should be a string, bytes or UUID object")
  end.

End AddressService_rest.

(** ** app/services/users.py, the other operations *)

(** [user.id] of a mapped instance is its identity key. *)

Module UserService_rest.

Definition get_user_by_email (email : string) : M (gmap string Value) :=
  do user <- query (UserRepo.get_user_by_email (VStr email));
  match user with
  | None => raise (HTTPException status.HTTP_404_NOT_FOUND "User not found")
  | Some user => λ s, ret (model_validate UserPublic s user) s
  end.

Definition get_user_by_id (user_id : N) : M (gmap string Value) :=
  do user <- query (BaseRepo.get User user_id);
  match user with
  | None => raise (HTTPException status.HTTP_404_NOT_FOUND "User not found")
  | Some user => λ s, ret (model_validate UserPublic s user) s
  end.

(** [page] and [page_size] arrive validated by the route ([page >= 1],
    [1 <= page_size <= 100]); [//] is floor division, as [Z.div]. *)
Definition list_users (filters : schemas.UserFilters) (page page_size : Z)
    (s : Session) : schemas.UsersPublic :=
  let skip := ((page - 1) * page_size)%Z in
  let filter_dict :=
    [("is_active", schemas.is_active filters);
     ("is_verified", schemas.is_verified filters);
     ("role", schemas.role filters)] in
  let filter_dict := filter (λ kv : string * Value, kv.2 ≠ VNone) filter_dict in
  let '(users, total) :=
    UserRepo_list.list_users (Z.to_nat skip) (Z.to_nat page_size)
      (Some filter_dict) s in
  let users := map (model_validate UserPublic s) users in
  let pagination :=
    schemas.mkPaginationMeta total page page_size
      ((total + page_size - 1) `div` page_size)%Z in
  schemas.mkUsersPublic users pagination.

Definition update_user (now : Z) (user_id : N) (user_in : UpdateData)
    : M (gmap string Value) :=
  do user <- query (BaseRepo.get User user_id);
  match user with
  | None => raise (HTTPException status.HTTP_404_NOT_FOUND "User not found")
  | Some user =>
      do updated_user <- BaseRepo.update User now user user_in;
      λ s, ret (model_validate UserPublic s updated_user) s
  end.

Definition delete_user_me (now : Z) (user : N) : M unit :=
  λ s,
  if bool_decide (getattr s user "role" = VStr "admin")
  then raise (HTTPException status.HTTP_403_FORBIDDEN
                "admin users are not allowed to delete themselves") s
  else (run BaseRepo.soft_delete User now user; ret tt) s.

Definition delete_user (now : Z) (user_id : N) (admin_id : option N) : M unit :=
  if bool_decide (Some user_id = admin_id)
  then raise (HTTPException status.HTTP_403_FORBIDDEN
                "admin users are not allowed to delete themselves")
  else
    do user <- query (BaseRepo.get User user_id);
    match user with
    | None => raise (HTTPException status.HTTP_404_NOT_FOUND "User not found")
    | Some _ =>
        match admin_id with
        | None =>
            raise (HTTPException status.HTTP_403_FORBIDDEN
                     "The user doesn't have enough privileges")
        | Some _ => run BaseRepo.soft_delete User now user_id; ret tt
        end
    end.

End UserService_rest.

(** ** app/api/deps.py, the role guard *)

Module deps_roles.

Definition require_roles (allowed_roles : list string) (current_user : N)
    (s : Session) : Result N :=
  if negb (bool_decide (getattr s current_user "role" ∈ VStr <$> allowed_roles))
  then Raise (HTTPException status.HTTP_403_FORBIDDEN "Not enough permissions")
  else Ok current_user.

Definition CurrentAdmin : N → Session → Result N := require_roles ["admin"].
Definition CurrentCustomer : N → Session → Result N := require_roles ["customer"].
Definition CurrentAdminOrManager : N → Session → Result N :=
  require_roles ["admin"; "manager"].

End deps_roles.

(** ** app/core/security.py, tokens *)

(** [jwt.encode] under the configured key. *)
Class JwtEncode : Type := {
  encode : TokenPayload → string
}.

(** A token that was issued decodes, before it expires, to its payload. *)
Class JwtSound (E : JwtEncode) (J : Jwt) : Prop :=
  decode_encode : ∀ payload, decode (encode payload) = Some payload.

Module security_tokens.

(** [expires_delta] in seconds; [timedelta(0)] is falsy.
    [ACCESS_TOKEN_EXPIRE_MINUTES] is read from the settings. *)
Definition create_access_token `{JwtEncode} (now : Z)
    (ACCESS_TOKEN_EXPIRE_MINUTES : Z) (subject : N) (expires_delta : Z)
    : string :=
  let expire :=
    if negb (expires_delta =? 0)%Z then (now + expires_delta)%Z
    else (now + ACCESS_TOKEN_EXPIRE_MINUTES * 60)%Z in
  let to_encode := mkTokenPayload (Some subject) (Some expire) in
  encode to_encode.

End security_tokens.

(** ** app/api/routes/auth.py and app/api/routes/users.py *)

Module routes.

Definition log_in `{Bcrypt} `{JwtEncode} (now : Z)
    (ACCESS_TOKEN_EXPIRE_MINUTES : Z) (username password : string)
    (s : Session) : Result string :=
  let invalid_credentials := HTTPException 401 "Invalid credentials" in
  match UserRepo.get_user_by_email (VStr username) s with
  | Raise e => Raise e
  | Ok None => Raise invalid_credentials
  | Ok (Some user) =>
      if negb (security.verify_password password
                 (getattr s user "hashed_password"))
      then Raise invalid_credentials
      else if negb (truthy (getattr s user "is_active"))
      then Raise (HTTPException status.HTTP_400_BAD_REQUEST "Inactive user")
      else
        let expires_delta := (ACCESS_TOKEN_EXPIRE_MINUTES * 60)%Z in
        Ok (security_tokens.create_access_token now
              ACCESS_TOKEN_EXPIRE_MINUTES user expires_delta)
  end.

(** [GET /users/me] and [POST /auth/login/test-token]: the guard, then the
    service lookup of [current_user.id]. *)
Definition get_current_user `{Jwt} (token : string) : M (gmap string Value) :=
  do current_user <- query (deps.get_current_user token);
  UserService_rest.get_user_by_id current_user.

(** [GET /users/{user_id}] behind the guard. *)
Definition get_user_by_id (user_id : N) (current_user : N)
    : M (gmap string Value) :=
  λ s,
  if negb (bool_decide (current_user = user_id))
     && negb (bool_decide (getattr s current_user "role" = VStr "admin"))
  then raise (HTTPException 403 "The user doesn't have enough privileges") s
  else UserService_rest.get_user_by_id user_id s.

End routes.

(** ** app/api/routes/users.py, the routes behind a role guard *)

Module routes_users.

Definition delete_user_me `{Jwt} (now : Z) (token : string) : M unit :=
  do current_user <- query (deps.get_current_user token);
  UserService_rest.delete_user_me now current_user.


Definition list_users `{Jwt} (token : string) (page page_size : Z)
    (is_active is_verified role : Value) : M schemas.UsersPublic :=
  do current_user <- query (deps.get_current_user token);
  run query (deps_roles.CurrentAdminOrManager current_user);
  let filters := schemas.mkUserFilters is_active is_verified role in
  λ s, ret (UserService_rest.list_users filters page page_size s) s.

Definition update_user `{Jwt} (now : Z) (user_id : N) (user_in : UpdateData)
    (token : string) : M (gmap string Value) :=
  do current_user <- query (deps.get_current_user token);
  run query (deps_roles.CurrentAdmin current_user);
  UserService_rest.update_user now user_id user_in.

Definition delete_user `{Jwt} (now : Z) (user_id : N) (token : string)
    : M unit :=
  do current_user <- query (deps.get_current_user token);
  do current_admin <- query (deps_roles.CurrentAdmin current_user);
  UserService_rest.delete_user now user_id (Some current_admin).

End routes_users.

(** ** Notions used by the further statements *)

(** A live user row that agrees with every filter that is set. *)
Definition user_matches (filters : schemas.UserFilters)
    (r : gmap string Value) : Prop :=
  attr r "deleted_at" = VNone
  ∧ (schemas.is_active filters ≠ VNone →
     attr r "is_active" = schemas.is_active filters)
  ∧ (schemas.is_verified filters ≠ VNone →
     attr r "is_verified" = schemas.is_verified filters)
  ∧ (schemas.role filters ≠ VNone → attr r "role" = schemas.role filters).

#[global] Instance user_matches_dec filters r : Decision (user_matches filters r).
Proof. unfold user_matches. apply _. Defined.

(** A stand-in for the token codec: the payload as a string of binary
    digits. *)
Module Fixtures_tokens.

Fixpoint digits (p : positive) : string :=
  match p with
  | xH => EmptyString
  | xO p => "0" +:+ digits p
  | xI p => "1" +:+ digits p
  end.

Fixpoint number (token : string) : option positive :=
  match token with
  | EmptyString => Some xH
  | String c token =>
      p ← number token;
      if String.eqb (String c EmptyString) "0" then Some (xO p)
      else if String.eqb (String c EmptyString) "1" then Some (xI p)
      else None
  end.

#[local] Instance jwt_encode : JwtEncode := {|
  encode payload := digits (countable.encode (sub payload, exp payload))
|}.

#[local] Instance jwt : Jwt := {|
  decode token :=
    p ← number token;
    fields ← countable.decode (A := option N * option Z) p;
    Some (mkTokenPayload fields.1 fields.2)
|}.

End Fixtures_tokens.



(** User 1 is an administrator, user 2 a manager, user 3 a customer. *)
Module Fixtures_roles.

Definition users : Session :=
  mkSession
    (list_to_map
       [(1%N, <["role" := VStr "admin"]>
                (Fixtures.user 1 "a@x.com" "$2b$pw12345678" true VNone));
        (2%N, <["role" := VStr "manager"]>
                (Fixtures.user 2 "b@x.com" "$2b$pw12345678" true VNone));
        (3%N, Fixtures.user 3 "c@x.com" "$2b$pw12345678" true VNone)])
    ∅.

End Fixtures_roles.

(** * Properties *)

(** Runs the state-and-exception plumbing of a definition. *)
Ltac unfold_M := unfold bind, query, modify, raise, ret.

(** ** The session *)

Lemma rows_setattr s k a v : rows (setattr s k a v) = rows s.
Proof. unfold setattr. by destruct (instance s k). Qed.

Lemma instance_setattr s k a v k' :
  instance (setattr s k a v) k' =
  if decide (k = k') then <[a := v]> <$> instance s k else instance s k'.
Proof.
  unfold setattr. destruct (instance s k) as [e|] eqn:He.
  - unfold instance; simpl. case_decide as Hk.
    + subst. apply lookup_union_Some_l, lookup_insert_eq.
    + by rewrite !lookup_union, lookup_insert_ne.
  - case_decide; [subst; by rewrite He | done].
Qed.

Lemma instance_clean s k : pending s = ∅ → instance s k = rows s !! k.
Proof. unfold instance. intros ->. by rewrite (left_id_L ∅ (∪)). Qed.

Lemma rows_commit s k : rows (commit s) !! k = instance s k.
Proof. done. Qed.


Lemma refresh_clean s k : pending s = ∅ → refresh s k = s.
Proof.
  destruct s as [t p]; simpl. intros ->. unfold refresh; simpl.
  by rewrite delete_empty.
Qed.

Lemma attr_insert_eq e a v : attr (<[a := v]> e) a = v.
Proof. unfold attr. by rewrite lookup_insert_eq. Qed.

Lemma attr_insert_ne e a b v : a ≠ b → attr (<[a := v]> e) b = attr e b.
Proof. intros. unfold attr. by rewrite lookup_insert_ne. Qed.

(** ** Statements *)

Lemma elem_of_execute s q k :
  k ∈ execute s q ↔ ∃ r, rows s !! k = Some r ∧ q r = true.
Proof.
  unfold execute. rewrite list_elem_of_fmap. split.
  - intros [[k' r] [-> Hin]]. apply elem_of_map_to_list in Hin.
    apply map_lookup_filter_Some in Hin as [Hr Hq]. simpl in *.
    exists r. split; [done | by apply Is_true_true].
  - intros (r & Hr & Hq). exists (k, r). split; [done |].
    apply elem_of_map_to_list, map_lookup_filter_Some. split; [done |].
    simpl. by apply Is_true_true.
Qed.

Lemma NoDup_execute s q : NoDup (execute s q).
Proof. apply NoDup_fst_map_to_list. Qed.


(** A list without repetition whose selected elements are exactly [a]. *)
Lemma filter_only {A} (P : A → Prop) `{∀ x, Decision (P x)} (l : list A) a :
  NoDup l → (∀ x, x ∈ l ∧ P x ↔ x = a) → filter P l = [a].
Proof.
  intros Hl Ha. apply Permutation_singleton_r, NoDup_Permutation.
  - by apply NoDup_filter.
  - apply NoDup_singleton.
  - intros x. rewrite list_elem_of_filter, list_elem_of_singleton.
    rewrite <- Ha. tauto.
Qed.


(** Under the primary-key constraint a lookup by [id] selects at most the row
    stored under that key. *)
Lemma execute_by_id s q id :
  pk_ok (rows s) →
  execute s (where_ q (col_eq "id" (VUuid id))) =
  match rows s !! id with
  | Some r => if q r then [id] else []
  | None => []
  end.
Proof.
  intros Hpk.
  assert (Hin : ∀ k, k ∈ execute s (where_ q (col_eq "id" (VUuid id))) ↔
                     k = id ∧ ∃ r, rows s !! id = Some r ∧ q r = true).
  { intros k. rewrite elem_of_execute. unfold where_, col_eq. split.
    - intros (r & Hr & Hq). apply andb_true_iff in Hq as [Hq Hid].
      apply bool_decide_eq_true in Hid. rewrite (Hpk _ _ Hr) in Hid.
      injection Hid as <-. eauto.
    - intros [-> (r & Hr & Hq)]. exists r. split; [done |].
      rewrite Hq. simpl. apply bool_decide_eq_true. by apply Hpk. }
  destruct (rows s !! id) as [r|] eqn:Hr; [destruct (q r) eqn:Hq |].
  - apply Permutation_singleton_r, NoDup_Permutation;
      [apply NoDup_execute | apply NoDup_singleton |].
    intros k. rewrite Hin, list_elem_of_singleton.
    split; [by intros [-> _] | intros ->; eauto].
  - apply elem_of_nil_inv. intros k. rewrite Hin.
    intros [_ (r' & Hr' & Hq')]. congruence.
  - apply elem_of_nil_inv. intros k. rewrite Hin.
    intros [_ (r' & Hr' & _)]. congruence.
Qed.

Lemma get_by_id model s id :
  pk_ok (rows s) →
  BaseRepo.get model id s =
  Ok (match rows s !! id with
      | Some r => if BaseRepo._base_query model r then Some id else None
      | None => None
      end).
Proof.
  intros Hpk. unfold BaseRepo.get. cbv zeta. rewrite execute_by_id by done.
  destruct (rows s !! id) as [r|]; [|done].
  by destruct (BaseRepo._base_query model r).
Qed.

Lemma base_query_Address r :
  BaseRepo._base_query Address r = is_none (attr r "deleted_at").
Proof. done. Qed.

Lemma base_query_User r :
  BaseRepo._base_query User r = is_none (attr r "deleted_at").
Proof. done. Qed.

Lemma is_none_true v : is_none v = true ↔ v = VNone.
Proof. destruct v; naive_solver. Qed.

(** ** Address repository: the default flag *)

Lemma elem_of_get_by_owner owner_id s k :
  k ∈ AddressRepo.get_by_owner owner_id s ↔
  ∃ r, rows s !! k = Some r ∧ attr r "owner_id" = VUuid owner_id
       ∧ attr r "deleted_at" = VNone.
Proof.
  unfold AddressRepo.get_by_owner. cbv zeta. rewrite elem_of_execute.
  unfold where_, select, col_eq, is_null. simpl.
  split; intros (r & Hr & H); exists r; (split; [done |]).
  - apply andb_true_iff in H as [H1 H2].
    apply bool_decide_eq_true in H1. by apply is_none_true in H2.
  - destruct H as [H1 H2]. apply andb_true_iff.
    split; [by apply bool_decide_eq_true | by apply is_none_true].
Qed.

Lemma attr_cleared e a : a ≠ "is_default" → attr (cleared e) a = attr e a.
Proof.
  intros Ha. unfold cleared. destruct (truthy (attr e "is_default")); [|done].
  by rewrite attr_insert_ne.
Qed.

Lemma truthy_cleared e : truthy (attr (cleared e) "is_default") = false.
Proof.
  unfold cleared. destruct (truthy (attr e "is_default")) eqn:He; [|done].
  by rewrite attr_insert_eq.
Qed.


Lemma rows_clear_step s addr : rows (clear_step s addr) = rows s.
Proof.
  unfold clear_step, add.
  destruct (truthy _); [apply rows_setattr | done].
Qed.

Lemma instance_clear_step s addr k :
  instance (clear_step s addr) k =
  if decide (addr = k) then cleared <$> instance s addr else instance s k.
Proof.
  unfold clear_step, add, getattr.
  destruct (instance s addr) as [e|] eqn:He; simpl.
  - unfold cleared. destruct (truthy (attr e "is_default")).
    + by rewrite instance_setattr, He.
    + case_decide; [by subst | done].
  - case_decide; [by subst | done].
Qed.

Lemma clear_fold l : ∀ s,
  NoDup l →
  rows (foldl clear_step s l) = rows s ∧
  ∀ k, instance (foldl clear_step s l) k =
       if decide (k ∈ l) then cleared <$> instance s k else instance s k.
Proof.
  induction l as [|a l IH]; intros s Hl.
  - split; [done |]. intros k. by rewrite decide_False by apply not_elem_of_nil.
  - change (foldl clear_step s (a :: l)) with (foldl clear_step (clear_step s a) l).
    apply NoDup_cons in Hl as [Ha Hl].
    destruct (IH (clear_step s a) Hl) as [Hrows Hinst].
    split; [by rewrite Hrows, rows_clear_step |].
    intros k. rewrite Hinst, !instance_clear_step.
    destruct (decide (a = k)) as [->|Hak].
    + rewrite decide_False by done.
      by rewrite decide_True by (apply elem_of_cons; auto).
    + destruct (decide (k ∈ l)) as [Hk|Hk].
      * by rewrite decide_True by (apply elem_of_cons; auto).
      * rewrite decide_False; [done |].
        intros Hk'. apply elem_of_cons in Hk' as [->|]; done.
Qed.


Lemma clear_default_eq owner_id s :
  AddressRepo.clear_default owner_id s =
  (Ok tt, foldl clear_step s (AddressRepo.get_by_owner owner_id s)).
Proof. done. Qed.

Lemma getattr_instance s k e a : instance s k = Some e → getattr s k a = attr e a.
Proof. unfold getattr. by intros ->. Qed.

Lemma rows_refresh_commit s a k : rows (refresh (commit s) a) !! k = instance s k.
Proof. done. Qed.

Lemma set_default_run address_id owner_id s r :
  pending s = ∅ → pk_ok (rows s) →
  rows s !! address_id = Some r → attr r "deleted_at" = VNone →
  ∃ s', AddressRepo.set_default address_id owner_id s = (Ok address_id, s')
    ∧ pending s' = ∅
    ∧ ∀ k, rows s' !! k =
        if decide (address_id = k)
        then Some (<["is_default" := VBool true]>
                     (if decide (address_id ∈ AddressRepo.get_by_owner owner_id s)
                      then cleared r else r))
        else if decide (k ∈ AddressRepo.get_by_owner owner_id s)
             then cleared <$> rows s !! k
             else rows s !! k.
Proof.
  intros Hclean Hpk Hr Hlive.
  destruct (clear_fold (AddressRepo.get_by_owner owner_id s) s)
    as [Hrows Hinst]; [apply NoDup_execute |].
  set (s1 := foldl clear_step s (AddressRepo.get_by_owner owner_id s)) in *.
  assert (Hget : BaseRepo.get Address address_id s1 = Ok (Some address_id)).
  { rewrite get_by_id by (by rewrite Hrows).
    by rewrite Hrows, Hr, base_query_Address, Hlive. }
  unfold AddressRepo.set_default; unfold_M.
  rewrite clear_default_eq. fold s1. rewrite Hget.
  eexists. split; [reflexivity |]. split; [done |].
  intros k. unfold add. rewrite rows_refresh_commit.
  rewrite instance_setattr, !Hinst, !instance_clean, Hr by done.
  destruct (decide (address_id = k)) as [->|Hk]; [|done].
  by destruct (decide (k ∈ AddressRepo.get_by_owner owner_id s)).
Qed.

Lemma getattr_clean s k r a :
  pending s = ∅ → rows s !! k = Some r → getattr s k a = attr r a.
Proof. intros Hc Hr. apply getattr_instance. by rewrite instance_clean. Qed.

(** [set_default] on a live address: the outcome, row by row. *)
Lemma set_default_rows address_id owner_id s r :
  pending s = ∅ → pk_ok (rows s) →
  rows s !! address_id = Some r → attr r "deleted_at" = VNone →
  ∃ s', AddressRepo.set_default address_id owner_id s = (Ok address_id, s')
    ∧ pending s' = ∅
    ∧ (∃ r', rows s' !! address_id = Some r'
             ∧ attr r' "is_default" = VBool true
             ∧ ∀ c, c ≠ "is_default" → attr r' c = attr r c)
    ∧ (∀ k r0, k ≠ address_id → rows s !! k = Some r0 →
         rows s' !! k =
         Some (if decide (k ∈ AddressRepo.get_by_owner owner_id s)
               then cleared r0 else r0))
    ∧ (∀ k, rows s !! k = None → rows s' !! k = None).
Proof.
  intros Hclean Hpk Hr Hlive.
  destruct (set_default_run address_id owner_id s r) as (s' & Hrun & Hp & Hrows);
    [done.. |].
  exists s'. split; [done |]. split; [done |]. split; [|split].
  - eexists. split; [rewrite Hrows, decide_True by done; reflexivity |].
    split; [apply attr_insert_eq |].
    intros c Hc. rewrite attr_insert_ne by done.
    destruct (decide _); [by apply attr_cleared | done].
  - intros k r0 Hk Hr0. rewrite Hrows, decide_False by done.
    rewrite Hr0. by destruct (decide (k ∈ AddressRepo.get_by_owner owner_id s)).
  - intros k Hk. rewrite Hrows. rewrite decide_False by congruence.
    rewrite Hk. by destruct (decide (k ∈ AddressRepo.get_by_owner owner_id s)).
Qed.

(** Every row keeps all its columns but [is_default]. *)
Lemma set_default_columns address_id owner_id s r s' :
  pending s = ∅ → pk_ok (rows s) →
  rows s !! address_id = Some r → attr r "deleted_at" = VNone →
  AddressRepo.set_default address_id owner_id s = (Ok address_id, s') →
  ∀ k, match rows s !! k, rows s' !! k with
       | Some r0, Some r1 => ∀ c, c ≠ "is_default" → attr r1 c = attr r0 c
       | None, None => True
       | _, _ => False
       end.
Proof.
  intros Hclean Hpk Hr Hlive Hrun k.
  destruct (set_default_rows address_id owner_id s r)
    as (s1 & Hrun1 & _ & (r' & Hr' & _ & Hcols) & Hother & Hnone); [done.. |].
  rewrite Hrun in Hrun1. injection Hrun1 as <-.
  destruct (rows s !! k) as [r0|] eqn:Hr0.
  - destruct (decide (k = address_id)) as [->|Hk].
    + rewrite Hr'. by simplify_eq.
    + rewrite (Hother _ _ Hk Hr0). intros c Hc.
      destruct (decide _); [by apply attr_cleared | done].
  - by rewrite Hnone.
Qed.

Lemma set_default_pk_ok address_id owner_id s r s' :
  pending s = ∅ → pk_ok (rows s) →
  rows s !! address_id = Some r → attr r "deleted_at" = VNone →
  AddressRepo.set_default address_id owner_id s = (Ok address_id, s') →
  pk_ok (rows s').
Proof.
  intros Hclean Hpk Hr Hlive Hrun k r1 Hr1.
  pose proof (set_default_columns _ _ _ _ _ Hclean Hpk Hr Hlive Hrun k) as Hk.
  rewrite Hr1 in Hk. destruct (rows s !! k) as [r0|] eqn:Hr0; [|done].
  rewrite Hk by done. by apply Hpk.
Qed.

Lemma set_default_get_by_owner address_id owner_id s r s' o k :
  pending s = ∅ → pk_ok (rows s) →
  rows s !! address_id = Some r → attr r "deleted_at" = VNone →
  AddressRepo.set_default address_id owner_id s = (Ok address_id, s') →
  k ∈ AddressRepo.get_by_owner o s' ↔ k ∈ AddressRepo.get_by_owner o s.
Proof.
  intros Hclean Hpk Hr Hlive Hrun.
  pose proof (set_default_columns _ _ _ _ _ Hclean Hpk Hr Hlive Hrun k) as Hk.
  rewrite !elem_of_get_by_owner.
  destruct (rows s !! k) as [r0|], (rows s' !! k) as [r1|]; try done.
  - split; intros (? & [= <-] & Ho & Hd); eexists; (split; [done |]).
    + by rewrite <- !Hk.
    + by rewrite !Hk.
Qed.

Lemma set_default_only address_id owner_id s r :
  pending s = ∅ → pk_ok (rows s) →
  rows s !! address_id = Some r →
  attr r "owner_id" = VUuid owner_id → attr r "deleted_at" = VNone →
  ∃ s', AddressRepo.set_default address_id owner_id s = (Ok address_id, s')
    ∧ pending s' = ∅ ∧ pk_ok (rows s')
    ∧ getattr s' address_id "is_default" = VBool true
    ∧ default_addresses owner_id s' = [address_id].
Proof.
  intros Hclean Hpk Hr Howner Hlive.
  destruct (set_default_rows address_id owner_id s r)
    as (s' & Hrun & Hp & (r' & Hr' & Hdef & Hcols) & Hother & Hnone); [done.. |].
  exists s'. split; [done |]. split; [done |].
  split; [by apply (set_default_pk_ok address_id owner_id s r s') |].
  split; [by rewrite (getattr_clean _ _ _ _ Hp Hr') |].
  apply filter_only; [apply NoDup_execute |].
  intros k. rewrite (set_default_get_by_owner _ _ _ _ _ _ _ Hclean Hpk Hr Hlive Hrun).
  split.
  - intros [Hk Ht]. destruct (decide (k = address_id)) as [|Hne]; [done |].
    exfalso. pose proof Hk as Hk'.
    apply elem_of_get_by_owner in Hk' as (r0 & Hr0 & _).
    rewrite (getattr_clean _ _ _ _ Hp (Hother _ _ Hne Hr0)) in Ht.
    rewrite decide_True in Ht by done. by rewrite truthy_cleared in Ht.
  - intros ->. split.
    + apply elem_of_get_by_owner. by exists r.
    + by rewrite (getattr_clean _ _ _ _ Hp Hr'), Hdef.
Qed.

Lemma pk_ok_decide t :
  bool_decide (map_Forall (λ k r, attr r "id" = VUuid k) t) = true → pk_ok t.
Proof. intros H k r Hr. apply bool_decide_eq_true in H. by apply H. Qed.

(** ** C1 *)

(** When the owner's only address reading as default is [a] and its flag is
    [True], [get_default] finds it and no other row. *)
Lemma get_default_unique (s : Session) (owner_id a : N) :
  pending s = ∅ →
  default_addresses owner_id s = [a] →
  getattr s a "is_default" = VBool true →
  AddressRepo.get_default owner_id s = Ok (Some a).
Proof.
  intros Hclean Hdef Hflag. unfold AddressRepo.get_default. cbv zeta.
  set (q := where_ _ _).
  assert (Hq : ∀ k, k ∈ execute s q ↔
                    k ∈ AddressRepo.get_by_owner owner_id s
                    ∧ getattr s k "is_default" = VBool true).
  { intros k. rewrite elem_of_execute, elem_of_get_by_owner.
    unfold q, where_, select, is_null, col_eq, col_true. simpl. split.
    - intros (r & Hr & H). apply andb_true_iff in H as [H Hd].
      apply andb_true_iff in H as [Hl Ho].
      apply bool_decide_eq_true in Hd, Ho. apply is_none_true in Hl.
      split; [by exists r |]. by rewrite (getattr_clean _ _ _ _ Hclean Hr).
    - intros [(r & Hr & Ho & Hl) Hd]. exists r. split; [done |].
      rewrite (getattr_clean _ _ _ _ Hclean Hr) in Hd.
      rewrite Hl, Ho, Hd. simpl. by rewrite !bool_decide_true. }
  assert (execute s q = [a]) as ->; [|done].
  apply Permutation_singleton_r, NoDup_Permutation;
    [apply NoDup_execute | apply NoDup_singleton |].
  intros k. rewrite Hq, list_elem_of_singleton.
  assert (Hin : ∀ k, k ∈ default_addresses owner_id s ↔ k = a)
    by (intros k'; by rewrite Hdef, list_elem_of_singleton).
  split.
  - intros [Hk Hd]. apply Hin, list_elem_of_filter. by rewrite Hd.
  - intros ->. split; [|done].
    pose proof (proj2 (Hin a) eq_refl) as Ha.
    by apply list_elem_of_filter in Ha as [_ Ha].
Qed.

(** C1. After a successful [set_default] of a live address [a] of the owner,
    run on a session with nothing pending, the live addresses of the owner
    that have the default flag set are exactly [a], which [get_default]
    returns; and a following [set_default] of another live address [b] of
    the owner leaves exactly [b]. *)
Theorem set_default_exactly_one (s : Session) (owner_id a : N)
    (ra : gmap string Value) :
  pending s = ∅ → pk_ok (rows s) →
  rows s !! a = Some ra →
  attr ra "owner_id" = VUuid owner_id → attr ra "deleted_at" = VNone →
  ∃ s1, AddressRepo.set_default a owner_id s = (Ok a, s1)
    ∧ getattr s1 a "is_default" = VBool true
    ∧ default_addresses owner_id s1 = [a]
    ∧ AddressRepo.get_default owner_id s1 = Ok (Some a)
    ∧ ∀ b rb, rows s !! b = Some rb →
        attr rb "owner_id" = VUuid owner_id → attr rb "deleted_at" = VNone →
        a ≠ b →
        ∃ s2, AddressRepo.set_default b owner_id s1 = (Ok b, s2)
          ∧ getattr s2 b "is_default" = VBool true
          ∧ truthy (getattr s2 a "is_default") = false
          ∧ default_addresses owner_id s2 = [b]
          ∧ AddressRepo.get_default owner_id s2 = Ok (Some b).
Proof.
  intros Hclean Hpk Ha Howner Hlive.
  destruct (set_default_only a owner_id s ra)
    as (s1 & Hrun & Hclean1 & Hpk1 & Hflag & Hdef); [done.. |].
  exists s1. do 3 (split; [done |]).
  split; [by apply get_default_unique |].
  intros b rb Hb Hbowner Hblive Hab.
  pose proof (set_default_columns _ _ _ _ _ Hclean Hpk Ha Hlive Hrun b) as Hcols.
  rewrite Hb in Hcols. destruct (rows s1 !! b) as [rb1|] eqn:Hb1; [|done].
  destruct (set_default_only b owner_id s1 rb1)
    as (s2 & Hrun2 & Hclean2 & Hpk2 & Hflag2 & Hdef2);
    [done | done | done | by rewrite Hcols | by rewrite Hcols |].
  exists s2. do 2 (split; [done |]).
  split; [|split; [done | by apply get_default_unique]].
  destruct (truthy (getattr s2 a "is_default")) eqn:Ht; [|done].
  assert (a ∈ default_addresses owner_id s2) as Hin.
  { apply list_elem_of_filter. split; [by rewrite Ht |].
    apply (set_default_get_by_owner b owner_id s1 rb1 s2);
      [done | done | done | by rewrite Hcols | done |].
    apply (set_default_get_by_owner a owner_id s ra s1); [done.. |].
    apply elem_of_get_by_owner. by exists ra. }
  rewrite Hdef2 in Hin. apply list_elem_of_singleton in Hin. done.
Qed.

Lemma set_default_exactly_one_witness :
  ∃ s1, AddressRepo.set_default 2 10 Fixtures.addresses = (Ok 2%N, s1)
    ∧ getattr s1 2 "is_default" = VBool true
    ∧ default_addresses 10 s1 = [2%N]
    ∧ AddressRepo.get_default 10 s1 = Ok (Some 2%N)
    ∧ ∀ b rb, rows Fixtures.addresses !! b = Some rb →
        attr rb "owner_id" = VUuid 10 → attr rb "deleted_at" = VNone →
        2%N ≠ b →
        ∃ s2, AddressRepo.set_default b 10 s1 = (Ok b, s2)
          ∧ getattr s2 b "is_default" = VBool true
          ∧ truthy (getattr s2 2 "is_default") = false
          ∧ default_addresses 10 s2 = [b]
          ∧ AddressRepo.get_default 10 s2 = Ok (Some b).
Proof.
  apply (set_default_exactly_one Fixtures.addresses 10 2
           (Fixtures.address 2 10 false VNone)).
  - reflexivity.
  - apply pk_ok_decide. vm_compute. reflexivity.
  - reflexivity.
  - reflexivity.
  - reflexivity.
Defined.

(** ** C2 *)



(** ** C3 *)

Lemma attr_model_validate schema s k c :
  c ∈ schema → attr (model_validate schema s k) c = getattr s k c.
Proof.
  intros Hc. unfold model_validate, getattr, attr.
  destruct (instance s k) as [e|]; simpl.
  - rewrite map_lookup_filter. destruct (e !! c) as [v|]; simpl; [|done].
    by rewrite option_guard_True.
  - by rewrite map_filter_empty, lookup_empty.
Qed.


(** The repository dereferences the result of [get] without a check: on an
    id with no live row the call ends in [AttributeError], and the table is
    as before. *)
Lemma set_default_missing (s : Session) (address_id owner_id : N) :
  pk_ok (rows s) →
  (∀ r, rows s !! address_id = Some r → attr r "deleted_at" ≠ VNone) →
  fst (AddressService.set_default address_id owner_id s) =
    Raise (AttributeError "'NoneType' object has no attribute 'is_default'")
  ∧ rows (snd (AddressService.set_default address_id owner_id s)) = rows s.
Proof.
  intros Hpk Hgone.
  destruct (clear_fold (AddressRepo.get_by_owner owner_id s) s)
    as [Hrows _]; [apply NoDup_execute |].
  unfold AddressService.set_default, AddressRepo.set_default; unfold_M.
  rewrite clear_default_eq, get_by_id by (by rewrite Hrows).
  rewrite Hrows. destruct (rows s !! address_id) as [r|] eqn:Hr; [|done].
  rewrite base_query_Address.
  destruct (is_none (attr r "deleted_at")) eqn:Hd; [|done].
  apply is_none_true in Hd. by destruct (Hgone r).
Qed.

(** The owner argument only selects the addresses to clear: a live address
    of any owner is made default and returned. *)
Lemma set_default_any_owner (s : Session) (address_id owner_id : N)
    (r : gmap string Value) :
  pending s = ∅ → pk_ok (rows s) →
  rows s !! address_id = Some r → attr r "deleted_at" = VNone →
  ∃ s', AddressService.set_default address_id owner_id s =
          (Ok (model_validate AddressPublic s' address_id), s')
    ∧ getattr s' address_id "is_default" = VBool true
    ∧ getattr s' address_id "owner_id" = attr r "owner_id".
Proof.
  intros Hclean Hpk Hr Hlive.
  destruct (set_default_rows address_id owner_id s r)
    as (s' & Hrun & Hp & (r' & Hr' & Hdef & Hcols) & _); [done.. |].
  exists s'. unfold AddressService.set_default; unfold_M. rewrite Hrun.
  split; [done |].
  rewrite !(getattr_clean _ _ _ _ Hp Hr'). split; [done |]. by apply Hcols.
Qed.

(** C3. Evaluation of [set_default] on ids the caller does not own: an id
    with no row and a soft-deleted address end in [AttributeError], not in
    a 404; an address of owner 20 requested by owner 10 is returned as
    default, owner 20 then holds two default addresses and owner 10 none. *)
Theorem set_default_unchecked_target :
  fst (AddressService.set_default 7 10 Fixtures.addresses) =
    Raise (AttributeError "'NoneType' object has no attribute 'is_default'")
  ∧ fst (AddressService.set_default 4 10 Fixtures.addresses) =
    Raise (AttributeError "'NoneType' object has no attribute 'is_default'")
  ∧ result_attr (fst (AddressService.set_default 5 10 Fixtures.two_owners))
      "owner_id" = Some (VUuid 20)
  ∧ result_attr (fst (AddressService.set_default 5 10 Fixtures.two_owners))
      "is_default" = Some (VBool true)
  ∧ length (default_addresses 20
              (snd (AddressService.set_default 5 10 Fixtures.two_owners))) = 2
  ∧ default_addresses 10
      (snd (AddressService.set_default 5 10 Fixtures.two_owners)) = [].
Proof. repeat split; vm_compute; reflexivity. Qed.

(** ** C4 *)

(** C4. [get_address] raises the same 404 "Address not found" when no live
    address has the id and when the address belongs to another owner; it
    never raises 403; and it returns the public projection of a live address
    of the owner. *)
Theorem get_address_not_found (s : Session) (address_id owner_id : N) :
  pk_ok (rows s) →
  ((∀ r, rows s !! address_id = Some r → attr r "deleted_at" ≠ VNone) →
     AddressService.get_address address_id owner_id s =
     (Raise (HTTPException status.HTTP_404_NOT_FOUND "Address not found"), s))
  ∧ (getattr s address_id "owner_id" ≠ VUuid owner_id →
     AddressService.get_address address_id owner_id s =
     (Raise (HTTPException status.HTTP_404_NOT_FOUND "Address not found"), s))
  ∧ (∀ detail,
       fst (AddressService.get_address address_id owner_id s) ≠
       Raise (HTTPException status.HTTP_403_FORBIDDEN detail))
  ∧ (∀ r, rows s !! address_id = Some r → attr r "deleted_at" = VNone →
       getattr s address_id "owner_id" = VUuid owner_id →
       AddressService.get_address address_id owner_id s =
       (Ok (model_validate AddressPublic s address_id), s)).
Proof.
  intros Hpk.
  unfold AddressService.get_address; unfold_M.
  rewrite get_by_id by done.
  destruct (rows s !! address_id) as [r|] eqn:Hr.
  - rewrite base_query_Address.
    destruct (is_none (attr r "deleted_at")) eqn:Hd.
    + apply is_none_true in Hd.
      destruct (bool_decide (getattr s address_id "owner_id" = VUuid owner_id))
        eqn:Ho; simpl.
      * apply bool_decide_eq_true in Ho.
        split; [intros H; by destruct (H r) |].
        split; [done |]. split; [done |]. done.
      * apply bool_decide_eq_false in Ho.
        split; [done |]. split; [done |]. split; [done |]. done.
    + assert (attr r "deleted_at" ≠ VNone)
        by (intros H; apply is_none_true in H; congruence).
      split; [done |]. split; [done |]. split; [done |].
      intros r' [= <-]. done.
  - split; [done |]. split; [done |]. split; [done |]. done.
Qed.

Lemma get_address_not_found_witness :
  AddressService.get_address 4 10 Fixtures.addresses =
    (Raise (HTTPException status.HTTP_404_NOT_FOUND "Address not found"),
     Fixtures.addresses)
  ∧ AddressService.get_address 3 10 Fixtures.addresses =
    (Raise (HTTPException status.HTTP_404_NOT_FOUND "Address not found"),
     Fixtures.addresses)
  ∧ AddressService.get_address 7 10 Fixtures.addresses =
    (Raise (HTTPException status.HTTP_404_NOT_FOUND "Address not found"),
     Fixtures.addresses).
Proof.
  assert (Hpk : pk_ok (rows Fixtures.addresses))
    by (apply pk_ok_decide; vm_compute; reflexivity).
  split; [|split].
  - refine (proj1 (get_address_not_found Fixtures.addresses 4 10 Hpk) _).
    intros r Hr.
    assert (r = Fixtures.address 4 10 true (VDatetime 5)) as ->
      by (apply (inj Some); rewrite <- Hr; reflexivity).
    vm_compute. discriminate.
  - refine (proj1 (proj2 (get_address_not_found Fixtures.addresses 3 10 Hpk)) _).
    vm_compute. discriminate.
  - refine (proj1 (get_address_not_found Fixtures.addresses 7 10 Hpk) _).
    intros r Hr. exfalso. revert Hr. vm_compute. discriminate.
Defined.

(** ** C5 *)

(** The guard resolves the subject with [session.get]: the outcome depends
    on the existence of the row and on its active flag only. *)
Lemma get_current_user_resolves `{Jwt} (token : string) (p : TokenPayload)
    (k : N) (s : Session) :
  decode token = Some p → sub p = Some k →
  deps.get_current_user token s =
  match instance s k with
  | None => Raise (HTTPException status.HTTP_404_NOT_FOUND "User not found")
  | Some u =>
      if truthy (attr u "is_active") then Ok k
      else Raise (HTTPException status.HTTP_400_BAD_REQUEST "Inactive user")
  end.
Proof.
  intros Hp Hk. unfold deps.get_current_user, session_get, getattr.
  rewrite Hp, Hk. simpl.
  destruct (instance s k) as [u|] eqn:Hu; simpl; [|done].
  rewrite Hu. by destruct (truthy (attr u "is_active")).
Qed.

(** C5. Evaluation of the guard on the token of user 2, whose row is
    soft-deleted and active: the repository lookup [get] does not find the
    user, the guard returns it. *)
Theorem get_current_user_soft_deleted :
  getattr Fixtures.users 2 "deleted_at" = VDatetime 5
  ∧ BaseRepo.get User 2 Fixtures.users = Ok None
  ∧ deps.get_current_user (H := Fixtures.jwt) "user-2" Fixtures.users = Ok 2%N
  ∧ deps.get_current_user (H := Fixtures.jwt) "user-9" Fixtures.users =
      Raise (HTTPException status.HTTP_404_NOT_FOUND "User not found")
  ∧ deps.get_current_user (H := Fixtures.jwt) "user-3" Fixtures.users =
      Raise (HTTPException status.HTTP_400_BAD_REQUEST "Inactive user").
Proof. repeat split; vm_compute; reflexivity. Qed.

(** ** C6 *)








(** ** C7 *)

Lemma soft_delete_run (model : Model) (now : Z) (id : N) (s : Session)
    (r : gmap string Value) :
  hasattr model "deleted_at" = true → pending s = ∅ → pk_ok (rows s) →
  rows s !! id = Some r → attr r "deleted_at" = VNone →
  BaseRepo.soft_delete model now id s =
  (Ok id, mkSession (<[id := <["deleted_at" := VDatetime now]> r]> (rows s)) ∅).
Proof.
  intros Hm Hclean Hpk Hr Hlive.
  unfold BaseRepo.soft_delete, add; unfold_M. rewrite Hm. simpl.
  rewrite get_by_id, Hr by done. unfold BaseRepo._base_query. rewrite Hm.
  unfold where_, select, is_null. rewrite Hlive. simpl.
  unfold commit, setattr. rewrite instance_clean, Hr by done. simpl.
  rewrite Hclean. f_equal. f_equal.
  by rewrite insert_empty, <- insert_union_singleton_l.
Qed.

(** C7. [update] of an instance whose deletion timestamp is set raises 404
    and changes nothing; [soft_delete] raises 404 when no live row has the
    id, in particular right after a successful [soft_delete] of that id; and
    it raises [ValueError] when the class has no [deleted_at] attribute. *)
Theorem soft_deleted_is_not_found (model : Model) (s : Session) :
  (∀ now db_obj obj_in,
     hasattr model "deleted_at" = true →
     getattr s db_obj "deleted_at" ≠ VNone →
     BaseRepo.update model now db_obj obj_in s =
     (Raise (HTTPException status.HTTP_404_NOT_FOUND
               "Record not found or has been deleted"), s))
  ∧ (∀ now id,
       hasattr model "deleted_at" = true → pk_ok (rows s) →
       (∀ r, rows s !! id = Some r → attr r "deleted_at" ≠ VNone) →
       BaseRepo.soft_delete model now id s =
       (Raise (HTTPException status.HTTP_404_NOT_FOUND
                 (model_name model +:+ " not found")), s))
  ∧ (∀ now now' id r,
       hasattr model "deleted_at" = true → pending s = ∅ → pk_ok (rows s) →
       rows s !! id = Some r → attr r "deleted_at" = VNone →
       ∃ s', BaseRepo.soft_delete model now id s = (Ok id, s')
         ∧ getattr s' id "deleted_at" = VDatetime now
         ∧ BaseRepo.soft_delete model now' id s' =
           (Raise (HTTPException status.HTTP_404_NOT_FOUND
                     (model_name model +:+ " not found")), s'))
  ∧ (∀ now id,
       hasattr model "deleted_at" = false →
       BaseRepo.soft_delete model now id s =
       (Raise (ValueError
                 (model_name model +:+ " does not support soft delete. "
                  +:+ "Add 'deleted_at: datetime | None' field to enable.")),
        s)).
Proof.
  assert (Hgone : ∀ now id s0,
            hasattr model "deleted_at" = true → pk_ok (rows s0) →
            (∀ r, rows s0 !! id = Some r → attr r "deleted_at" ≠ VNone) →
            BaseRepo.soft_delete model now id s0 =
            (Raise (HTTPException status.HTTP_404_NOT_FOUND
                      (model_name model +:+ " not found")), s0)).
  { intros now id s0 Hm Hpk Hr.
    unfold BaseRepo.soft_delete; unfold_M. rewrite Hm. simpl.
    rewrite get_by_id by done. unfold BaseRepo._base_query. rewrite Hm.
    destruct (rows s0 !! id) as [r|] eqn:Hrow; [|done].
    unfold where_, select, is_null. simpl.
    destruct (is_none (attr r "deleted_at")) eqn:Hd; [|done].
    apply is_none_true in Hd. by destruct (Hr r). }
  split; [|split; [|split]].
  - intros now db_obj obj_in Hm Hd. unfold BaseRepo.update. rewrite Hm.
    destruct (is_none (getattr s db_obj "deleted_at")) eqn:Hn; [|done].
    by apply is_none_true in Hn.
  - intros now id. apply Hgone.
  - intros now now' id r Hm Hclean Hpk Hr Hlive.
    eexists. split; [by apply soft_delete_run |].
    split.
    + unfold getattr, instance. simpl.
      rewrite (left_id_L ∅ (∪)), lookup_insert_eq. apply attr_insert_eq.
    + apply Hgone; [done | |]; simpl.
      * intros k r' Hk. destruct (decide (id = k)) as [<-|Hne].
        -- rewrite lookup_insert_eq in Hk. injection Hk as <-.
           rewrite attr_insert_ne by done. by apply Hpk.
        -- rewrite lookup_insert_ne in Hk by done. by apply Hpk.
      * intros r'. rewrite lookup_insert_eq. intros [= <-].
        by rewrite attr_insert_eq.
  - intros now id Hm. unfold BaseRepo.soft_delete. by rewrite Hm.
Qed.

Lemma soft_deleted_is_not_found_witness :
  BaseRepo.update Fixtures.DummyModel 9 4 (DictIn {["name" := VStr "z"]})
    Fixtures.dummies =
    (Raise (HTTPException status.HTTP_404_NOT_FOUND
              "Record not found or has been deleted"), Fixtures.dummies)
  ∧ BaseRepo.soft_delete Fixtures.DummyModel 9 4 Fixtures.dummies =
    (Raise (HTTPException status.HTTP_404_NOT_FOUND "DummyModel not found"),
     Fixtures.dummies)
  ∧ (∃ s', BaseRepo.soft_delete Fixtures.DummyModel 9 1 Fixtures.dummies
           = (Ok 1%N, s')
       ∧ getattr s' 1 "deleted_at" = VDatetime 9
       ∧ BaseRepo.soft_delete Fixtures.DummyModel 11 1 s' =
         (Raise (HTTPException status.HTTP_404_NOT_FOUND "DummyModel not found"),
          s'))
  ∧ BaseRepo.soft_delete Fixtures.Plain 9 1 Fixtures.dummies =
    (Raise (ValueError
              ("Plain does not support soft delete. "
               +:+ "Add 'deleted_at: datetime | None' field to enable.")),
     Fixtures.dummies).
Proof.
  assert (Hpk : pk_ok (rows Fixtures.dummies))
    by (apply pk_ok_decide; vm_compute; reflexivity).
  split; [|split; [|split]].
  - refine (proj1 (soft_deleted_is_not_found Fixtures.DummyModel Fixtures.dummies)
              9%Z 4%N _ eq_refl _).
    vm_compute. discriminate.
  - refine (proj1 (proj2 (soft_deleted_is_not_found Fixtures.DummyModel
                            Fixtures.dummies)) 9%Z 4%N eq_refl Hpk _).
    intros r Hr.
    assert (r = Fixtures.dummy 4 "d" 1 (VDatetime 7)) as ->
      by (apply (inj Some); rewrite <- Hr; reflexivity).
    vm_compute. discriminate.
  - refine (proj1 (proj2 (proj2 (soft_deleted_is_not_found Fixtures.DummyModel
                                   Fixtures.dummies)))
              9%Z 11%Z 1%N (Fixtures.dummy 1 "a" 1 VNone)
              eq_refl eq_refl Hpk eq_refl eq_refl).
  - exact (proj2 (proj2 (proj2 (soft_deleted_is_not_found Fixtures.Plain
                                  Fixtures.dummies))) 9%Z 1%N eq_refl).
Defined.

(** ** C8 *)

(** The loop of [update] over the provided fields. *)
Lemma setattr_fold (s : Session) (db_obj : N) (e : gmap string Value)
    (update_data : gmap string Value) :
  instance s db_obj = Some e →
  ∀ k, instance (map_fold (λ field value s, setattr s db_obj field value)
                   s update_data) k =
       if decide (db_obj = k) then Some (update_data ∪ e) else instance s k.
Proof.
  intros He.
  apply (map_fold_weak_ind
           (λ s' m, ∀ k, instance s' k =
                         if decide (db_obj = k) then Some (m ∪ e)
                         else instance s k)).
  - intros k. rewrite (left_id_L ∅ (∪)). case_decide; [by subst | done].
  - intros field value m s' Hfresh IH k. rewrite instance_setattr.
    case_decide as Hk; [|by rewrite IH, decide_False].
    rewrite IH, decide_True by done. simpl. by rewrite insert_union_l.
Qed.

Lemma update_run (model : Model) (now : Z) (db_obj : N) (obj_in : UpdateData)
    (s : Session) (e : gmap string Value) :
  instance s db_obj = Some e →
  hasattr model "deleted_at" = false ∨ attr e "deleted_at" = VNone →
  ∃ s', BaseRepo.update model now db_obj obj_in s = (Ok db_obj, s')
    ∧ pending s' = ∅
    ∧ ∀ k, rows s' !! k =
        if decide (db_obj = k)
        then Some (if hasattr model "updated_at"
                   then <["updated_at" := VDatetime now]> (provided obj_in ∪ e)
                   else provided obj_in ∪ e)
        else instance s k.
Proof.
  intros He Hlive. unfold BaseRepo.update.
  assert (hasattr model "deleted_at"
          && negb (is_none (getattr s db_obj "deleted_at")) = false) as ->.
  { destruct Hlive as [-> | Hd]; [done |].
    rewrite (getattr_instance _ _ _ _ He), Hd. apply andb_false_r. }
  fold (provided obj_in).
  pose proof (setattr_fold s db_obj e (provided obj_in) He) as Hfold.
  set (s1 := map_fold _ s (provided obj_in)) in *.
  eexists. split; [reflexivity |]. split; [apply delete_empty |].
  intros k. unfold add. rewrite rows_refresh_commit.
  destruct (hasattr model "updated_at").
  - rewrite instance_setattr.
    destruct (decide (db_obj = k)) as [Hk|Hk].
    + by rewrite Hfold, decide_True.
    + by rewrite Hfold, decide_False.
  - by rewrite Hfold.
Qed.



(** ** C9 *)

Lemma verify_password_hash `{B : Bcrypt} {Hsound : BcryptSound B}
    (salt password : string) :
  security.verify_password password
    (VStr (security.get_password_hash salt password)) = true.
Proof.
  unfold security.verify_password, security.get_password_hash.
  by rewrite checkpw_hashpw.
Qed.

Lemma update_password_run `{B : Bcrypt} (salt : string) (now : Z) (user : N)
    (new_password : string) (s : Session) (e : gmap string Value) :
  instance s user = Some e →
  ∃ s', UserRepo.update_password salt now user new_password s = (Ok user, s')
    ∧ pending s' = ∅
    ∧ ∀ k, rows s' !! k =
        if decide (user = k)
        then Some (<["updated_at" := VDatetime now]>
                     (<["hashed_password" :=
                          VStr (security.get_password_hash salt new_password)]> e))
        else instance s k.
Proof.
  intros He. unfold UserRepo.update_password, add; unfold_M.
  eexists. split; [reflexivity |]. split; [done |].
  intros k. rewrite rows_commit, !instance_setattr.
  destruct (decide (user = k)) as [Hk|Hk]; [|done].
  by rewrite decide_True, He.
Qed.

(** C9. [change_password] raises 400 and changes nothing when the old
    password does not verify against the stored hash, and when the new
    password verifies against it; otherwise it stores a hash against which
    the new password verifies, and touches no other column but
    [updated_at]. *)
Theorem change_password_rules `{B : Bcrypt} {Hsound : BcryptSound B}
    (salt : string) (now : Z) (user : N) (old_password new_password : string)
    (s : Session) :
  (security.verify_password old_password (getattr s user "hashed_password")
     = false →
   UserService.change_password salt now user old_password new_password s =
   (Raise (HTTPException status.HTTP_400_BAD_REQUEST "Incorrect password"), s))
  ∧ (security.verify_password old_password (getattr s user "hashed_password")
       = true →
     security.verify_password new_password (getattr s user "hashed_password")
       = true →
     UserService.change_password salt now user old_password new_password s =
     (Raise (HTTPException status.HTTP_400_BAD_REQUEST
               "New password cannot be same as current"), s))
  ∧ (security.verify_password old_password (getattr s user "hashed_password")
       = true →
     security.verify_password new_password (getattr s user "hashed_password")
       = false →
     ∃ s', UserService.change_password salt now user old_password new_password s
           = (Ok tt, s')
       ∧ pending s' = ∅
       ∧ getattr s' user "hashed_password" =
           VStr (security.get_password_hash salt new_password)
       ∧ security.verify_password new_password
           (getattr s' user "hashed_password") = true
       ∧ (∀ c, c ≠ "hashed_password" → c ≠ "updated_at" →
            getattr s' user c = getattr s user c)
       ∧ (∀ k, k ≠ user → instance s' k = instance s k)).
Proof.
  unfold UserService.change_password, raise.
  split; [by intros -> |]. split; [by intros -> -> |].
  intros Hold Hnew. rewrite Hold, Hnew. simpl.
  destruct (instance s user) as [e|] eqn:He;
    [| unfold getattr in Hold; by rewrite He in Hold].
  destruct (update_password_run salt now user new_password s e He)
    as (s' & Hrun & Hclean & Hrows).
  exists s'. unfold_M. rewrite Hrun. split; [done |]. split; [done |].
  assert (Hget : ∀ c, getattr s' user c =
            attr (<["updated_at" := VDatetime now]>
                    (<["hashed_password" :=
                         VStr (security.get_password_hash salt new_password)]> e))
                 c).
  { intros c. apply getattr_clean; [done |]. by rewrite Hrows, decide_True. }
  assert (Hhash : getattr s' user "hashed_password" =
                  VStr (security.get_password_hash salt new_password)).
  { by rewrite Hget, attr_insert_ne, attr_insert_eq. }
  split; [done |]. split; [rewrite Hhash; apply verify_password_hash |].
  split.
  - intros c Hc1 Hc2. rewrite Hget, !attr_insert_ne by done.
    by rewrite (getattr_instance _ _ _ _ He).
  - intros k Hk. by rewrite instance_clean, Hrows, decide_False.
Qed.

Lemma Fixtures_bcrypt_sound : BcryptSound Fixtures.bcrypt.
Proof. intros password salt. simpl. by rewrite String.eqb_refl. Qed.

Lemma change_password_rules_witness :
  UserService.change_password (H := Fixtures.bcrypt) "salt" 9 1
    "wrong-password" "newpassword1" Fixtures.users =
    (Raise (HTTPException status.HTTP_400_BAD_REQUEST "Incorrect password"),
     Fixtures.users)
  ∧ UserService.change_password (H := Fixtures.bcrypt) "salt" 9 1
      "pw12345678" "pw12345678" Fixtures.users =
    (Raise (HTTPException status.HTTP_400_BAD_REQUEST
              "New password cannot be same as current"), Fixtures.users)
  ∧ ∃ s', UserService.change_password (H := Fixtures.bcrypt) "salt" 9 1
            "pw12345678" "newpassword1" Fixtures.users = (Ok tt, s')
      ∧ security.verify_password (H := Fixtures.bcrypt) "newpassword1"
          (getattr s' 1 "hashed_password") = true.
Proof.
  split; [|split].
  - exact (proj1 (change_password_rules (B := Fixtures.bcrypt)
                    (Hsound := Fixtures_bcrypt_sound) "salt" 9 1
                    "wrong-password" "newpassword1" Fixtures.users) eq_refl).
  - exact (proj1 (proj2 (change_password_rules (B := Fixtures.bcrypt)
                           (Hsound := Fixtures_bcrypt_sound) "salt" 9 1
                           "pw12345678" "pw12345678" Fixtures.users))
             eq_refl eq_refl).
  - destruct (proj2 (proj2 (change_password_rules (B := Fixtures.bcrypt)
                              (Hsound := Fixtures_bcrypt_sound) "salt" 9 1
                              "pw12345678" "newpassword1" Fixtures.users))
                eq_refl eq_refl)
      as (s' & Hrun & _ & _ & Hverify & _).
    exists s'. split; [exact Hrun | exact Hverify].
Defined.

(** ** C10 *)

(** The WHERE clauses added by the loop over [filters.items()]. *)
Lemma filters_loop (model : Model) (items : list (string * Value)) :
  ∀ (q : Query) (r : gmap string Value),
    foldl (λ query kv,
             if negb (is_none kv.2) && hasattr model kv.1
             then where_ query (col_eq kv.1 kv.2)
             else query) q items r
    = q r && forallb (λ kv, if negb (is_none kv.2) && hasattr model kv.1
                            then bool_decide (attr r kv.1 = kv.2) else true)
                     items.
Proof.
  induction items as [|kv items IH]; intros q r; simpl.
  - by rewrite andb_true_r.
  - rewrite IH. destruct (negb (is_none kv.2) && hasattr model kv.1); [|done].
    unfold where_, col_eq. by rewrite andb_assoc.
Qed.

Lemma execute_ext (s : Session) (q1 q2 : Query) :
  (∀ r, q1 r = q2 r) → execute s q1 = execute s q2.
Proof.
  intros Hq. unfold execute. f_equal. f_equal.
  apply map_filter_ext. intros k r _. simpl. by rewrite Hq.
Qed.

Lemma execute_count_length (s : Session) (q : Query) :
  execute_count s q = length (execute s q).
Proof.
  unfold execute_count, execute. by rewrite length_fmap, length_map_to_list.
Qed.

Lemma get_listing_selected (model : Model) (skip limit : nat)
    (filters : option (list (string * Value))) (s : Session) :
  BaseRepo.get_listing model skip limit filters s =
  take limit (drop skip (execute s (selected model filters))).
Proof.
  unfold BaseRepo.get_listing. cbv zeta. f_equal. f_equal.
  apply execute_ext. intros r. unfold selected, BaseRepo._base_query.
  destruct filters as [[|kv items]|]; simpl;
    rewrite ?filters_loop;
    destruct (hasattr model "deleted_at");
    destruct (negb (is_none kv.2) && hasattr model kv.1) || idtac;
    unfold where_, select, col_eq, is_null; simpl;
    by rewrite ?andb_true_r, ?andb_assoc.
Qed.

Lemma get_count_selected (model : Model)
    (filters : option (list (string * Value))) (s : Session) :
  BaseRepo.get_count model filters s = length (execute s (selected model filters)).
Proof.
  unfold BaseRepo.get_count. cbv zeta. rewrite execute_count_length.
  match goal with
  | |- (if (?n =? 0)%nat then _ else _) = _ =>
      assert ((if (n =? 0)%nat then 0%nat else n) = n) as ->
        by (destruct (Nat.eqb_spec n 0); congruence)
  end.
  f_equal. apply execute_ext. intros r. unfold selected.
  destruct filters as [[|kv items]|]; simpl;
    rewrite ?filters_loop;
    destruct (hasattr model "deleted_at");
    destruct (negb (is_none kv.2) && hasattr model kv.1) || idtac;
    unfold where_, select, col_eq, is_null; simpl;
    by rewrite ?andb_true_r, ?andb_assoc.
Qed.

Lemma selected_ignores (model : Model) (key : string) (value : Value)
    (before after : list (string * Value)) (r : gmap string Value) :
  value = VNone ∨ hasattr model key = false →
  selected model (Some (before ++ (key, value) :: after)%list) r
  = selected model (Some (before ++ after)%list) r.
Proof.
  intros Hi. unfold selected. simpl. f_equal.
  rewrite !forallb_app. f_equal. simpl.
  destruct Hi as [-> | ->]; [done |]. by rewrite andb_false_r.
Qed.

(** C10. With skip 0 and a limit of at least the count, [get_listing]
    returns as many rows as [get_count] counts for the same filters, and
    exactly the live rows that equal the filter on every entry in force; an
    entry whose value is [None] or whose key is not an attribute of the
    class changes neither the count nor the listing. *)
Theorem get_count_is_length_of_get_listing (model : Model)
    (filters : option (list (string * Value))) (limit : nat) (s : Session) :
  (BaseRepo.get_count model filters s ≤ limit)%nat →
  length (BaseRepo.get_listing model 0 limit filters s)
    = BaseRepo.get_count model filters s
  ∧ (∀ k, k ∈ BaseRepo.get_listing model 0 limit filters s ↔
          ∃ r, rows s !! k = Some r ∧ selected model filters r = true)
  ∧ NoDup (BaseRepo.get_listing model 0 limit filters s)
  ∧ (∀ key value before after skip limit',
       filters = Some (before ++ (key, value) :: after)%list →
       value = VNone ∨ hasattr model key = false →
       BaseRepo.get_count model filters s
         = BaseRepo.get_count model (Some (before ++ after)%list) s
       ∧ BaseRepo.get_listing model skip limit' filters s
         = BaseRepo.get_listing model skip limit' (Some (before ++ after)%list) s).
Proof.
  rewrite get_count_selected, get_listing_selected. intros Hlimit.
  rewrite drop_0, take_ge by done.
  split; [done |]. split; [apply elem_of_execute |].
  split; [apply NoDup_execute |].
  intros key value before after skip limit' -> Hi.
  rewrite get_count_selected, !get_listing_selected.
  rewrite (execute_ext s (selected model (Some (before ++ (key, value) :: after)%list))
             (selected model (Some (before ++ after)%list)));
    [done |].
  intros r. by apply selected_ignores.
Qed.

Lemma get_count_is_length_of_get_listing_witness :
  length (BaseRepo.get_listing Fixtures.DummyModel 0 100
            (Some [("value", VInt 1); ("name", VNone); ("colour", VStr "red")])
            Fixtures.dummies) = 2
  ∧ BaseRepo.get_count Fixtures.DummyModel
      (Some [("value", VInt 1); ("name", VNone); ("colour", VStr "red")])
      Fixtures.dummies = 2
  ∧ BaseRepo.get_count Fixtures.DummyModel (Some [("value", VInt 1)])
      Fixtures.dummies = 2.
Proof.
  assert (Hcount : BaseRepo.get_count Fixtures.DummyModel
            (Some [("value", VInt 1); ("name", VNone); ("colour", VStr "red")])
            Fixtures.dummies = 2) by (vm_compute; reflexivity).
  split; [|split; [exact Hcount | vm_compute; reflexivity]].
  rewrite <- Hcount at 2.
  refine (proj1 (get_count_is_length_of_get_listing Fixtures.DummyModel
                   (Some [("value", VInt 1); ("name", VNone);
                          ("colour", VStr "red")])
                   100 Fixtures.dummies _)).
  rewrite Hcount. lia.
Defined.

(** * Further properties *)

(** ** Soft delete and hard delete in the generic repository *)

Lemma execute_insert_out (s : Session) (p : gmap N (gmap string Value))
    (q : Query) (id : N) (r r' : gmap string Value) :
  rows s !! id = Some r → q r = true → q r' = false →
  length (execute (mkSession (<[id := r']> (rows s)) p) q) + 1
  = length (execute s q).
Proof.
  intros Hr Hq Hq'. unfold execute. rewrite !length_fmap, !length_map_to_list.
  simpl. rewrite map_filter_insert_False by (simpl; rewrite Hq'; intros []).
  rewrite map_filter_delete, map_size_delete.
  assert (Hin : filter (λ kr, Is_true (q kr.2)) (rows s) !! id = Some r).
  { apply map_lookup_filter_Some. split; [done |]. simpl. by rewrite Hq. }
  rewrite Hin.
  pose proof (map_size_ne_0_lookup_2 _ id (mk_is_Some _ _ Hin)). simpl. lia.
Qed.

Lemma execute_insert_same (s : Session) (p : gmap N (gmap string Value))
    (q : Query) (id : N) (r r' : gmap string Value) :
  rows s !! id = Some r → q r = false → q r' = false →
  execute (mkSession (<[id := r']> (rows s)) p) q = execute s q.
Proof.
  intros Hr Hq Hq'. unfold execute. simpl.
  rewrite map_filter_insert_False by (simpl; rewrite Hq'; intros []).
  rewrite map_filter_delete, delete_id; [done |].
  apply map_lookup_filter_None. right. intros r0 Hr0. simpl.
  rewrite Hr in Hr0. injection Hr0 as <-. rewrite Hq. intros [].
Qed.

Lemma pk_ok_insert (t : gmap N (gmap string Value)) (id : N)
    (r : gmap string Value) :
  pk_ok t → attr r "id" = VUuid id → pk_ok (<[id := r]> t).
Proof.
  intros Hpk Hid k r' Hk. destruct (decide (id = k)) as [<-|Hne].
  - rewrite lookup_insert_eq in Hk. by injection Hk as <-.
  - rewrite lookup_insert_ne in Hk by done. by apply Hpk.
Qed.

Lemma selected_deleted (model : Model) (filters : option (list (string * Value)))
    (r : gmap string Value) :
  hasattr model "deleted_at" = true → attr r "deleted_at" ≠ VNone →
  selected model filters r = false.
Proof.
  intros Hm Hd. unfold selected. rewrite Hm.
  destruct (is_none (attr r "deleted_at")) eqn:Hn; [|done].
  by apply is_none_true in Hn.
Qed.

(** X1. A successful [soft_delete] keeps the row, stamped, and hides it:
    [get] answers [None], no listing contains the id, a count that counted
    the row drops by one and any other count is unchanged; the other rows
    are as before. *)
Theorem soft_delete_hides_row (model : Model) (now : Z) (id : N) (s : Session)
    (r : gmap string Value) :
  hasattr model "deleted_at" = true → pending s = ∅ → pk_ok (rows s) →
  rows s !! id = Some r → attr r "deleted_at" = VNone →
  ∃ s', BaseRepo.soft_delete model now id s = (Ok id, s')
    ∧ rows s' !! id = Some (<["deleted_at" := VDatetime now]> r)
    ∧ (∀ k, k ≠ id → rows s' !! k = rows s !! k)
    ∧ BaseRepo.get model id s' = Ok None
    ∧ (∀ skip limit filters,
         id ∉ BaseRepo.get_listing model skip limit filters s')
    ∧ (∀ filters, selected model filters r = true →
         BaseRepo.get_count model filters s' + 1
         = BaseRepo.get_count model filters s)
    ∧ (∀ filters, selected model filters r = false →
         BaseRepo.get_count model filters s'
         = BaseRepo.get_count model filters s).
Proof.
  intros Hm Hclean Hpk Hr Hlive.
  set (r' := <["deleted_at" := VDatetime now]> r).
  assert (Hdel : attr r' "deleted_at" ≠ VNone)
    by (unfold r'; by rewrite attr_insert_eq).
  exists (mkSession (<[id := r']> (rows s)) ∅).
  split; [by apply soft_delete_run |].
  split; [apply lookup_insert_eq |].
  split; [intros k Hk; by apply lookup_insert_ne |].
  split.
  { rewrite get_by_id; simpl.
    - rewrite lookup_insert_eq. unfold BaseRepo._base_query. rewrite Hm.
      unfold where_, select, is_null. simpl.
      destruct (is_none (attr r' "deleted_at")) eqn:Hn; [|done].
      by apply is_none_true in Hn.
    - apply pk_ok_insert; [done |]. unfold r'.
      rewrite attr_insert_ne by done. by apply Hpk. }
  split.
  { intros skip limit filters Hin. rewrite get_listing_selected in Hin.
    apply subseteq_take, subseteq_drop in Hin.
    apply elem_of_execute in Hin as (r0 & Hr0 & Hsel). simpl in Hr0.
    rewrite lookup_insert_eq in Hr0. injection Hr0 as <-.
    by rewrite selected_deleted in Hsel. }
  split.
  - intros filters Hsel. rewrite !get_count_selected.
    apply (execute_insert_out s ∅ _ id r r'); [done | done |].
    by apply selected_deleted.
  - intros filters Hsel. rewrite !get_count_selected. f_equal.
    apply (execute_insert_same s ∅ _ id r r'); [done | done |].
    by apply selected_deleted.
Qed.

Lemma soft_delete_hides_row_witness :
  ∃ s', BaseRepo.soft_delete Fixtures.DummyModel 9 1 Fixtures.dummies
        = (Ok 1%N, s')
    ∧ BaseRepo.get Fixtures.DummyModel 1 s' = Ok None
    ∧ BaseRepo.get_count Fixtures.DummyModel (Some [("value", VInt 1)]) s' + 1
      = BaseRepo.get_count Fixtures.DummyModel (Some [("value", VInt 1)])
          Fixtures.dummies
    ∧ BaseRepo.get_count Fixtures.DummyModel (Some [("value", VInt 2)]) s'
      = BaseRepo.get_count Fixtures.DummyModel (Some [("value", VInt 2)])
          Fixtures.dummies.
Proof.
  destruct (soft_delete_hides_row Fixtures.DummyModel 9 1 Fixtures.dummies
              (Fixtures.dummy 1 "a" 1 VNone) eq_refl eq_refl)
    as (s' & Hrun & _ & _ & Hget & _ & Hin & Hout).
  - apply pk_ok_decide. vm_compute. reflexivity.
  - reflexivity.
  - reflexivity.
  - exists s'. split; [exact Hrun |]. split; [exact Hget |].
    split; [apply Hin | apply Hout]; vm_compute; reflexivity.
Defined.

Lemma delete_run (model : Model) (id : N) (s : Session) :
  pk_ok (rows s) →
  BaseRepo_delete.delete model id s =
  match rows s !! id with
  | Some r =>
      if BaseRepo._base_query model r
      then (Ok true,
            mkSession (delete id (pending s) ∪ delete id (rows s)) ∅)
      else (Ok false, s)
  | None => (Ok false, s)
  end.
Proof.
  intros Hpk. unfold BaseRepo_delete.delete; unfold_M.
  rewrite get_by_id by done.
  destruct (rows s !! id) as [r|]; [|done].
  by destruct (BaseRepo._base_query model r).
Qed.

(** X2. The hard [delete] removes a live row and answers [True], leaving
    every other row as it was; it answers [False] and changes nothing when
    no row has the id and when the row is soft-deleted: a soft-deleted row
    cannot be removed through the repository. *)
Theorem delete_removes_live_rows_only (model : Model) (id : N) (s : Session) :
  pending s = ∅ → pk_ok (rows s) →
  (∀ r, rows s !! id = Some r →
     hasattr model "deleted_at" = false ∨ attr r "deleted_at" = VNone →
     ∃ s', BaseRepo_delete.delete model id s = (Ok true, s')
       ∧ rows s' = delete id (rows s) ∧ pending s' = ∅
       ∧ BaseRepo.get model id s' = Ok None
       ∧ pk_ok (rows s'))
  ∧ (rows s !! id = None →
     BaseRepo_delete.delete model id s = (Ok false, s))
  ∧ (∀ r, rows s !! id = Some r →
     hasattr model "deleted_at" = true → attr r "deleted_at" ≠ VNone →
     BaseRepo_delete.delete model id s = (Ok false, s)).
Proof.
  intros Hclean Hpk. rewrite delete_run by done.
  split; [|split].
  - intros r Hr Hlive. rewrite Hr.
    assert (BaseRepo._base_query model r = true) as ->.
    { unfold BaseRepo._base_query.
      destruct Hlive as [-> | Hd]; [done |].
      destruct (hasattr model "deleted_at"); [|done].
      unfold where_, select, is_null. by rewrite Hd. }
    eexists. split; [reflexivity |]. simpl.
    rewrite Hclean, delete_empty, (left_id_L ∅ (∪)).
    split; [done |]. split; [done |].
    assert (Hpk' : pk_ok (delete id (rows s))).
    { intros k r' Hk. apply lookup_delete_Some in Hk as [_ Hk]. by apply Hpk. }
    split; [|done].
    rewrite get_by_id by done. simpl. by rewrite lookup_delete_eq.
  - by intros ->.
  - intros r Hr Hm Hd. rewrite Hr. unfold BaseRepo._base_query. rewrite Hm.
    unfold where_, select, is_null. simpl.
    destruct (is_none (attr r "deleted_at")) eqn:Hn; [|done].
    by apply is_none_true in Hn.
Qed.

Lemma delete_removes_live_rows_only_witness :
  (∃ s', BaseRepo_delete.delete Fixtures.DummyModel 1 Fixtures.dummies
         = (Ok true, s')
     ∧ BaseRepo.get Fixtures.DummyModel 1 s' = Ok None)
  ∧ BaseRepo_delete.delete Fixtures.DummyModel 7 Fixtures.dummies
    = (Ok false, Fixtures.dummies)
  ∧ BaseRepo_delete.delete Fixtures.DummyModel 4 Fixtures.dummies
    = (Ok false, Fixtures.dummies).
Proof.
  assert (Hpk : pk_ok (rows Fixtures.dummies))
    by (apply pk_ok_decide; vm_compute; reflexivity).
  destruct (delete_removes_live_rows_only Fixtures.DummyModel 1
              Fixtures.dummies eq_refl Hpk) as (Hlive & _ & _).
  destruct (delete_removes_live_rows_only Fixtures.DummyModel 7
              Fixtures.dummies eq_refl Hpk) as (_ & Hmissing & _).
  destruct (delete_removes_live_rows_only Fixtures.DummyModel 4
              Fixtures.dummies eq_refl Hpk) as (_ & _ & Hsoft).
  split; [|split].
  - destruct (Hlive (Fixtures.dummy 1 "a" 1 VNone) eq_refl (or_intror eq_refl))
      as (s' & Hrun & _ & _ & Hget & _).
    exists s'. split; [exact Hrun | exact Hget].
  - apply Hmissing. reflexivity.
  - apply (Hsoft (Fixtures.dummy 4 "d" 1 (VDatetime 7)) eq_refl eq_refl).
    vm_compute. discriminate.
Defined.

(** ** Address service: deletion, creation, update *)

Lemma get_address_eval (address_id owner_id : N) (s : Session) :
  pk_ok (rows s) →
  AddressService.get_address address_id owner_id s =
  (match rows s !! address_id with
   | Some r =>
       if is_none (attr r "deleted_at")
          && bool_decide (getattr s address_id "owner_id" = VUuid owner_id)
       then Ok (model_validate AddressPublic s address_id)
       else Raise (HTTPException status.HTTP_404_NOT_FOUND "Address not found")
   | None => Raise (HTTPException status.HTTP_404_NOT_FOUND "Address not found")
   end, s).
Proof.
  intros Hpk. unfold AddressService.get_address; unfold_M.
  rewrite get_by_id by done.
  destruct (rows s !! address_id) as [r|]; [|done].
  rewrite base_query_Address.
  destruct (is_none (attr r "deleted_at")); [|done]. simpl.
  by destruct (bool_decide _).
Qed.

Lemma get_by_owner_query (owner_id : N) (s : Session) :
  AddressRepo.get_by_owner owner_id s =
  execute s (where_ (where_ select (col_eq "owner_id" (VUuid owner_id)))
                    (is_null "deleted_at")).
Proof. done. Qed.

(** X3. [delete_address] answers 404 "Address not found" and changes
    nothing unless the address is live and owned by the caller.  On such an
    address it stamps the row and keeps it; the address is then gone from
    [get_address] and from the owner's listing, whose count drops by one, a
    second [delete_address] answers 404, and no other row changes. *)
Theorem delete_address_owner_only (now now' : Z) (address_id owner_id : N)
    (s : Session) :
  pending s = ∅ → pk_ok (rows s) →
  ((∀ r, rows s !! address_id = Some r →
       (attr r "deleted_at" ≠ VNone) ∨ (attr r "owner_id" ≠ VUuid owner_id)) →
     AddressService_rest.delete_address now address_id owner_id s =
     (Raise (HTTPException status.HTTP_404_NOT_FOUND "Address not found"), s))
  ∧ (∀ r, rows s !! address_id = Some r →
       attr r "deleted_at" = VNone → attr r "owner_id" = VUuid owner_id →
       ∃ s', AddressService_rest.delete_address now address_id owner_id s
             = (Ok tt, s')
         ∧ pending s' = ∅
         ∧ rows s' !! address_id = Some (<["deleted_at" := VDatetime now]> r)
         ∧ (∀ k, k ≠ address_id → rows s' !! k = rows s !! k)
         ∧ AddressService.get_address address_id owner_id s' =
           (Raise (HTTPException status.HTTP_404_NOT_FOUND "Address not found"),
            s')
         ∧ (address_id ∉ AddressRepo.get_by_owner owner_id s')
         ∧ schemas.count (AddressService_rest.list_user_addresses owner_id s') + 1
           = schemas.count (AddressService_rest.list_user_addresses owner_id s)
         ∧ AddressService_rest.delete_address now' address_id owner_id s' =
           (Raise (HTTPException status.HTTP_404_NOT_FOUND "Address not found"),
            s')).
Proof.
  intros Hclean Hpk.
  assert (Hfail : ∀ t s0, pk_ok (rows s0) → pending s0 = ∅ →
            (∀ r, rows s0 !! address_id = Some r →
               (attr r "deleted_at" ≠ VNone) ∨ (attr r "owner_id" ≠ VUuid owner_id)) →
            AddressService_rest.delete_address t address_id owner_id s0 =
            (Raise (HTTPException status.HTTP_404_NOT_FOUND "Address not found"),
             s0)).
  { intros t s0 Hpk0 Hclean0 Hno.
    unfold AddressService_rest.delete_address; unfold_M.
    rewrite get_address_eval by done.
    destruct (rows s0 !! address_id) as [r|] eqn:Hr; [|done].
    rewrite (getattr_clean _ _ _ _ Hclean0 Hr).
    destruct (Hno r eq_refl) as [Hd | Ho].
    - destruct (is_none (attr r "deleted_at")) eqn:Hn; [|done].
      by apply is_none_true in Hn.
    - rewrite bool_decide_false, andb_false_r by done. done. }
  split; [by apply Hfail |].
  intros r Hr Hlive Howner.
  set (r' := <["deleted_at" := VDatetime now]> r).
  set (s' := mkSession (<[address_id := r']> (rows s)) ∅).
  assert (Hpk' : pk_ok (rows s')).
  { apply pk_ok_insert; [done |]. unfold r'.
    rewrite attr_insert_ne by done. by apply Hpk. }
  assert (Hdel : attr r' "deleted_at" ≠ VNone)
    by (unfold r'; by rewrite attr_insert_eq).
  exists s'. split.
  { unfold AddressService_rest.delete_address; unfold_M.
    rewrite get_address_eval, Hr by done.
    rewrite (getattr_clean _ _ _ _ Hclean Hr), Hlive, Howner.
    rewrite bool_decide_true by done. simpl.
    rewrite attr_model_validate
      by exact (bool_decide_eq_true_1 ("id" ∈ AddressPublic) eq_refl).
    rewrite (getattr_clean _ _ _ _ Hclean Hr), (Hpk _ _ Hr).
    by rewrite (soft_delete_run Address now address_id s r). }
  split; [done |]. split; [apply lookup_insert_eq |].
  split; [intros k Hk; by apply lookup_insert_ne |].
  assert (Hgone : ∀ r0, rows s' !! address_id = Some r0 →
            (attr r0 "deleted_at" ≠ VNone) ∨ (attr r0 "owner_id" ≠ VUuid owner_id)).
  { intros r0. simpl. rewrite lookup_insert_eq. intros [= <-]. by left. }
  split.
  { rewrite get_address_eval by done. simpl. rewrite lookup_insert_eq.
    destruct (is_none (attr r' "deleted_at")) eqn:Hn; [|done].
    by apply is_none_true in Hn. }
  split.
  { intros Hin. apply elem_of_get_by_owner in Hin as (r0 & Hr0 & _ & Hd).
    simpl in Hr0. rewrite lookup_insert_eq in Hr0. by injection Hr0 as <-. }
  split; [|by apply Hfail].
  unfold AddressService_rest.list_user_addresses. simpl.
  rewrite !length_map, !get_by_owner_query.
  apply (execute_insert_out s ∅ _ address_id r r'); [done | |].
  - unfold where_, select, col_eq, is_null. rewrite Howner, Hlive.
    simpl. by rewrite bool_decide_true.
  - unfold where_, select, col_eq, is_null.
    destruct (is_none (attr r' "deleted_at")) eqn:Hn;
      [by apply is_none_true in Hn | by rewrite andb_false_r].
Qed.

Lemma delete_address_owner_only_witness :
  AddressService_rest.delete_address 9 3 10 Fixtures.addresses =
    (Raise (HTTPException status.HTTP_404_NOT_FOUND "Address not found"),
     Fixtures.addresses)
  ∧ ∃ s', AddressService_rest.delete_address 9 1 10 Fixtures.addresses
          = (Ok tt, s')
      ∧ schemas.count (AddressService_rest.list_user_addresses 10 s') + 1
        = schemas.count (AddressService_rest.list_user_addresses 10
                           Fixtures.addresses)
      ∧ AddressService_rest.delete_address 11 1 10 s' =
        (Raise (HTTPException status.HTTP_404_NOT_FOUND "Address not found"), s').
Proof.
  assert (Hpk : pk_ok (rows Fixtures.addresses))
    by (apply pk_ok_decide; vm_compute; reflexivity).
  split.
  - refine (proj1 (delete_address_owner_only 9 11 3 10 Fixtures.addresses
                     eq_refl Hpk) _).
    intros r Hr.
    assert (r = Fixtures.address 3 20 false VNone) as ->
      by (apply (inj Some); rewrite <- Hr; reflexivity).
    right. vm_compute. discriminate.
  - destruct (proj2 (delete_address_owner_only 9 11 1 10 Fixtures.addresses
                       eq_refl Hpk)
                (Fixtures.address 1 10 true VNone) eq_refl eq_refl eq_refl)
      as (s' & Hrun & _ & _ & _ & _ & _ & Hcount & Hagain).
    exists s'. split; [exact Hrun |]. split; [exact Hcount | exact Hagain].
Defined.

Lemma create_address_run (new_id : N) (created_at updated_at : Z)
    (owner_id : N) (address_in : gmap string Value) (s : Session) :
  ∃ s', AddressRepo_create.create_address new_id created_at updated_at
          owner_id address_in s = (Ok new_id, s')
    ∧ pending s' = ∅
    ∧ ∀ k, rows s' !! k =
        if decide (new_id = k)
        then Some (schemas.Address_init new_id created_at updated_at
                     (<["owner_id" := VUuid owner_id]> address_in))
        else instance s k.
Proof.
  unfold AddressRepo_create.create_address; unfold_M.
  eexists. split; [reflexivity |]. split; [apply delete_empty |].
  intros k. rewrite rows_refresh_commit. unfold instance, add_new. simpl.
  destruct (decide (new_id = k)) as [<-|Hk].
  - apply lookup_union_Some_l, lookup_insert_eq.
  - by rewrite !lookup_union, lookup_insert_ne.
Qed.

(** The row [create_address] builds from the dump of an [AddressCreate]. *)
Lemma Address_init_attr (new_id : N) (created_at updated_at : Z)
    (owner_id : N) (address_in : gmap string Value) :
  (∀ c, is_Some (address_in !! c) ↔ c ∈ AddressBase) →
  let db_obj := schemas.Address_init new_id created_at updated_at
                  (<["owner_id" := VUuid owner_id]> address_in) in
  attr db_obj "owner_id" = VUuid owner_id
  ∧ attr db_obj "id" = VUuid new_id
  ∧ attr db_obj "deleted_at" = VNone
  ∧ attr db_obj "is_default" = attr address_in "is_default".
Proof.
  intros Hwf db_obj. unfold db_obj, schemas.Address_init, attr.
  assert (Hno : ∀ c, c ∉ AddressBase → address_in !! c = None).
  { intros c Hc. destruct (address_in !! c) eqn:Hf; [|done].
    destruct Hc. apply Hwf. by rewrite Hf. }
  split; [|split; [|split]].
  - by rewrite (lookup_union_Some_l _ _ _ _ (lookup_insert_eq _ _ _)).
  - rewrite lookup_union, lookup_insert_ne, Hno; [done | | done].
    exact (bool_decide_eq_false_1 ("id" ∈ AddressBase) eq_refl).
  - rewrite lookup_union, lookup_insert_ne, Hno; [done | | done].
    exact (bool_decide_eq_false_1 ("deleted_at" ∈ AddressBase) eq_refl).
  - rewrite lookup_union, lookup_insert_ne by done.
    assert (Hin : "is_default" ∈ AddressBase)
      by exact (bool_decide_eq_true_1 ("is_default" ∈ AddressBase) eq_refl).
    apply Hwf in Hin as [v Hv]. by rewrite Hv.
Qed.

Lemma NoDup_default_addresses (owner_id : N) (s : Session) :
  NoDup (default_addresses owner_id s).
Proof. apply NoDup_filter, NoDup_execute. Qed.

Lemma elem_of_default_addresses (owner_id : N) (s : Session) (k : N) :
  pending s = ∅ →
  k ∈ default_addresses owner_id s ↔
  ∃ r, rows s !! k = Some r ∧ attr r "owner_id" = VUuid owner_id
       ∧ attr r "deleted_at" = VNone ∧ truthy (attr r "is_default") = true.
Proof.
  intros Hclean. unfold default_addresses.
  rewrite list_elem_of_filter, elem_of_get_by_owner. split.
  - intros [Ht (r & Hr & Ho & Hd)]. exists r.
    rewrite (getattr_clean _ _ _ _ Hclean Hr) in Ht.
    by rewrite (Is_true_true_1 _ Ht).
  - intros (r & Hr & Ho & Hd & Ht). split; [|by exists r].
    by rewrite (getattr_clean _ _ _ _ Hclean Hr), Ht.
Qed.

(** X4. [create_address] stores a live address of the owner under the new
    id and returns its projection; it never touches another row, so it
    clears no default flag: the owner's default addresses afterwards are the
    previous ones plus the new address when it is created as default, and
    an owner who had a default then has one more. *)
Theorem create_address_keeps_other_defaults (new_id : N)
    (created_at updated_at : Z) (owner_id : N)
    (address_in : gmap string Value) (s : Session) :
  pending s = ∅ → pk_ok (rows s) → rows s !! new_id = None →
  (∀ c, is_Some (address_in !! c) ↔ c ∈ AddressBase) →
  ∃ (s' : Session) (dto : gmap string Value),
    AddressService_rest.create_address new_id created_at updated_at owner_id
      address_in s = (Ok dto, s')
    ∧ attr dto "id" = VUuid new_id
    ∧ attr dto "owner_id" = VUuid owner_id
    ∧ pending s' = ∅ ∧ pk_ok (rows s')
    ∧ (∀ k, k ≠ new_id → rows s' !! k = rows s !! k)
    ∧ new_id ∈ AddressRepo.get_by_owner owner_id s'
    ∧ (∀ k, k ∈ default_addresses owner_id s' ↔
            (k = new_id ∧ truthy (attr address_in "is_default") = true)
            ∨ k ∈ default_addresses owner_id s)
    ∧ (truthy (attr address_in "is_default") = true →
       length (default_addresses owner_id s')
       = S (length (default_addresses owner_id s))).
Proof.
  intros Hclean Hpk Hfresh Hwf.
  destruct (create_address_run new_id created_at updated_at owner_id
              address_in s) as (s' & Hrun & Hclean' & Hrows).
  destruct (Address_init_attr new_id created_at updated_at owner_id
              address_in Hwf) as (Howner & Hid & Hdel & Hflag).
  set (db_obj := schemas.Address_init new_id created_at updated_at
                   (<["owner_id" := VUuid owner_id]> address_in)) in *.
  assert (Hnew : rows s' !! new_id = Some db_obj)
    by (by rewrite Hrows, decide_True).
  assert (Hold : ∀ k, k ≠ new_id → rows s' !! k = rows s !! k).
  { intros k Hk. by rewrite Hrows, decide_False, instance_clean. }
  assert (Hdefault : ∀ k, k ∈ default_addresses owner_id s' ↔
            (k = new_id ∧ truthy (attr address_in "is_default") = true)
            ∨ k ∈ default_addresses owner_id s).
  { intros k. rewrite !elem_of_default_addresses by done.
    destruct (decide (k = new_id)) as [->|Hk].
    - rewrite Hnew, Hfresh. split.
      + intros (r & [= <-] & _ & _ & Ht). left. by rewrite <- Hflag.
      + intros [[_ Ht] | (r & Hr & _)]; [|done].
        exists db_obj. by rewrite Hflag.
    - rewrite Hold by done. split; [by right |].
      by intros [[? _] | H]. }
  exists s', (model_validate AddressPublic s' new_id).
  split.
  { unfold AddressService_rest.create_address; unfold_M. by rewrite Hrun. }
  split.
  { rewrite attr_model_validate
      by exact (bool_decide_eq_true_1 ("id" ∈ AddressPublic) eq_refl).
    by rewrite (getattr_clean _ _ _ _ Hclean' Hnew). }
  split.
  { rewrite attr_model_validate
      by exact (bool_decide_eq_true_1 ("owner_id" ∈ AddressPublic) eq_refl).
    by rewrite (getattr_clean _ _ _ _ Hclean' Hnew). }
  split; [done |]. split.
  { intros k r Hr. destruct (decide (k = new_id)) as [->|Hk].
    - rewrite Hnew in Hr. by injection Hr as <-.
    - rewrite Hold in Hr by done. by apply Hpk. }
  split; [done |]. split.
  { apply elem_of_get_by_owner. by exists db_obj. }
  split; [done |].
  intros Ht. change (S (length (default_addresses owner_id s)))
    with (length (new_id :: default_addresses owner_id s)).
  apply Permutation_length, NoDup_Permutation.
  - apply NoDup_default_addresses.
  - apply NoDup_cons. split; [|apply NoDup_default_addresses].
    rewrite elem_of_default_addresses by done.
    intros (r & Hr & _). by rewrite Hfresh in Hr.
  - intros k. rewrite Hdefault, elem_of_cons. tauto.
Qed.

Lemma create_address_keeps_other_defaults_witness :
  ∃ (s' : Session) (dto : gmap string Value),
    AddressService_rest.create_address 8 0 0 10
      (list_to_map
         [("street_address", VStr "508"); ("apartment", VNone);
          ("city", VStr "Daystar"); ("county", VStr "Machakos");
          ("postal_code", VNone); ("is_default", VBool true);
          ("delivery_instructions", VNone)])
      Fixtures.addresses = (Ok dto, s')
    ∧ attr dto "owner_id" = VUuid 10
    ∧ length (default_addresses 10 s')
      = S (length (default_addresses 10 Fixtures.addresses)).
Proof.
  destruct (create_address_keeps_other_defaults 8 0 0 10
              (list_to_map
                 [("street_address", VStr "508"); ("apartment", VNone);
                  ("city", VStr "Daystar"); ("county", VStr "Machakos");
                  ("postal_code", VNone); ("is_default", VBool true);
                  ("delivery_instructions", VNone)])
              Fixtures.addresses eq_refl)
    as (s' & dto & Hrun & _ & Howner & _ & _ & _ & _ & _ & Hlen).
  - apply pk_ok_decide. vm_compute. reflexivity.
  - reflexivity.
  - intros c. split.
    + intros [v Hc]. apply elem_of_list_to_map_2 in Hc.
      apply (list_elem_of_fmap_2 fst) in Hc. exact Hc.
    + intros Hc. unfold AddressBase in Hc.
      repeat (apply elem_of_cons in Hc as [->|Hc]; [by eexists |]).
      by apply not_elem_of_nil in Hc.
  - exists s', dto. split; [exact Hrun |]. split; [exact Howner |].
    apply Hlen. reflexivity.
Defined.

Lemma attr_union (m e : gmap string Value) (c : string) :
  attr (m ∪ e) c = match m !! c with Some v => v | None => attr e c end.
Proof.
  unfold attr. rewrite lookup_union.
  destruct (m !! c), (e !! c); done.
Qed.

Lemma model_dump_lookup (values : gmap string Value) (fs : gset string)
    (c : string) :
  model_dump_exclude_unset values fs !! c =
  if decide (c ∈ fs) then values !! c else None.
Proof.
  unfold model_dump_exclude_unset. rewrite map_lookup_filter.
  destruct (values !! c) as [v|]; simpl.
  - case_decide; [by rewrite option_guard_True | by rewrite option_guard_False].
  - by case_decide.
Qed.

Lemma update_address_run (now : Z) (address_id owner_id : N)
    (values : gmap string Value) (fs : gset string) (s : Session)
    (r : gmap string Value) :
  pending s = ∅ → pk_ok (rows s) →
  rows s !! address_id = Some r →
  attr r "deleted_at" = VNone → attr r "owner_id" = VUuid owner_id →
  ∃ s', AddressService_rest.update_address now address_id owner_id values fs s
        = (Ok (model_validate AddressPublic s' address_id), s')
    ∧ pending s' = ∅
    ∧ rows s' !! address_id =
        Some (<["updated_at" := VDatetime now]>
                (model_dump_exclude_unset values fs
                 ∪ (if truthy (attr values "is_default") then cleared r else r)))
    ∧ ∀ k, k ≠ address_id →
        rows s' !! k =
        if truthy (attr values "is_default")
        then if decide (k ∈ AddressRepo.get_by_owner owner_id s)
             then cleared <$> rows s !! k else rows s !! k
        else rows s !! k.
Proof.
  intros Hclean Hpk Hr Hlive Howner.
  assert (Hin : address_id ∈ AddressRepo.get_by_owner owner_id s)
    by (apply elem_of_get_by_owner; by exists r).
  unfold AddressService_rest.update_address; unfold_M.
  rewrite get_by_id, Hr, base_query_Address, Hlive by done. simpl.
  rewrite (getattr_clean _ _ _ _ Hclean Hr), Howner.
  rewrite bool_decide_true by done. simpl.
  destruct (truthy (attr values "is_default")).
  - rewrite clear_default_eq.
    destruct (clear_fold (AddressRepo.get_by_owner owner_id s) s)
      as [Hrows Hinst]; [apply NoDup_execute |].
    set (s1 := foldl clear_step s (AddressRepo.get_by_owner owner_id s)) in *.
    destruct (update_run Address now address_id (SchemaIn values fs) s1
                (cleared r)) as (s' & Hrun & Hclean' & Hrows').
    { by rewrite Hinst, decide_True, instance_clean, Hr. }
    { right. by rewrite attr_cleared. }
    rewrite Hrun. exists s'. split; [done |]. split; [done |].
    split; [by rewrite Hrows', decide_True |].
    intros k Hk. rewrite Hrows', decide_False by done.
    by rewrite Hinst, instance_clean.
  - destruct (update_run Address now address_id (SchemaIn values fs) s r)
      as (s' & Hrun & Hclean' & Hrows').
    { by rewrite instance_clean. }
    { by right. }
    rewrite Hrun. exists s'. split; [done |]. split; [done |].
    split; [by rewrite Hrows', decide_True |].
    intros k Hk. by rewrite Hrows', decide_False, instance_clean.
Qed.

(** X5. [update_address] answers 404 and changes nothing unless the address
    is live and owned by the caller (no flag is cleared before that check).
    With [is_default=True] in the update it leaves the address as the
    owner's only default; with the flag absent or false it changes no other
    row. *)
Theorem update_address_default_exclusive (now : Z) (address_id owner_id : N)
    (values : gmap string Value) (fs : gset string) (s : Session) :
  pending s = ∅ → pk_ok (rows s) →
  (∀ c, c ∈ fs → c ∈ AddressBase) →
  (truthy (attr values "is_default") = true → "is_default" ∈ fs) →
  ((∀ r, rows s !! address_id = Some r →
       (attr r "deleted_at" ≠ VNone) ∨ (attr r "owner_id" ≠ VUuid owner_id)) →
     AddressService_rest.update_address now address_id owner_id values fs s =
     (Raise (HTTPException status.HTTP_404_NOT_FOUND "Address not found"), s))
  ∧ (∀ r, rows s !! address_id = Some r →
       attr r "deleted_at" = VNone → attr r "owner_id" = VUuid owner_id →
       ∃ (s' : Session) (dto : gmap string Value),
         AddressService_rest.update_address now address_id owner_id values fs s
           = (Ok dto, s')
         ∧ pending s' = ∅
         ∧ attr dto "owner_id" = VUuid owner_id
         ∧ (truthy (attr values "is_default") = true →
            truthy (attr dto "is_default") = true
            ∧ default_addresses owner_id s' = [address_id])
         ∧ (truthy (attr values "is_default") = false →
            ∀ k, k ≠ address_id → rows s' !! k = rows s !! k)).
Proof.
  intros Hclean Hpk Hfs Hset. split.
  { intros Hno. unfold AddressService_rest.update_address; unfold_M.
    rewrite get_by_id by done.
    destruct (rows s !! address_id) as [r|] eqn:Hr; [|done].
    rewrite base_query_Address.
    destruct (is_none (attr r "deleted_at")) eqn:Hn; [|done]. simpl.
    rewrite (getattr_clean _ _ _ _ Hclean Hr).
    destruct (Hno r eq_refl) as [Hd | Ho].
    - by apply is_none_true in Hn.
    - by rewrite bool_decide_false. }
  intros r Hr Hlive Howner.
  destruct (update_address_run now address_id owner_id values fs s r)
    as (s' & Hrun & Hclean' & Hnew & Hold); [done.. |].
  assert (Hkeep : ∀ c e, c ∉ AddressBase → c ≠ "updated_at" →
            attr (<["updated_at" := VDatetime now]>
                    (model_dump_exclude_unset values fs ∪ e)) c = attr e c).
  { intros c e Hc Hu. rewrite attr_insert_ne, attr_union by done.
    rewrite model_dump_lookup. case_decide as Hin; [|done].
    destruct Hc. by apply Hfs. }
  assert (HnotO : "owner_id" ∉ AddressBase)
    by exact (bool_decide_eq_false_1 ("owner_id" ∈ AddressBase) eq_refl).
  assert (HnotD : "deleted_at" ∉ AddressBase)
    by exact (bool_decide_eq_false_1 ("deleted_at" ∈ AddressBase) eq_refl).
  exists s', (model_validate AddressPublic s' address_id).
  split; [done |]. split; [done |].
  split.
  { rewrite attr_model_validate
      by exact (bool_decide_eq_true_1 ("owner_id" ∈ AddressPublic) eq_refl).
    rewrite (getattr_clean _ _ _ _ Hclean' Hnew), Hkeep by done.
    destruct (truthy (attr values "is_default")); [by rewrite attr_cleared | done]. }
  split.
  - intros Ht. rewrite Ht in Hnew, Hold.
    assert (Hflag : truthy (getattr s' address_id "is_default") = true).
    { rewrite (getattr_clean _ _ _ _ Hclean' Hnew).
      rewrite attr_insert_ne, attr_union, model_dump_lookup by done.
      rewrite decide_True by (by apply Hset).
      unfold attr in Ht. by destruct (values !! "is_default"). }
    split.
    { by rewrite attr_model_validate
        by exact (bool_decide_eq_true_1 ("is_default" ∈ AddressPublic) eq_refl). }
    apply filter_only; [apply NoDup_execute |].
    intros k. split.
    + intros [Hk Hd]. destruct (decide (k = address_id)) as [|Hne]; [done |].
      exfalso. apply elem_of_get_by_owner in Hk as (r1 & Hr1 & Ho1 & Hd1).
      pose proof Hr1 as Hr1'. rewrite (Hold _ Hne) in Hr1.
      rewrite (getattr_clean _ _ _ _ Hclean' Hr1') in Hd.
      destruct (decide (k ∈ AddressRepo.get_by_owner owner_id s)) as [Hin|Hin].
      * destruct (rows s !! k) as [r0|]; [|done]. injection Hr1 as <-.
        by rewrite truthy_cleared in Hd.
      * apply Hin, elem_of_get_by_owner. by exists r1.
    + intros ->. split; [|by rewrite Hflag].
      apply elem_of_get_by_owner. eexists. split; [exact Hnew |].
      rewrite !Hkeep by done. by rewrite !attr_cleared.
  - intros Ht k Hk. rewrite Ht in Hold. by apply Hold.
Qed.

Lemma update_address_default_exclusive_witness :
  AddressService_rest.update_address 9 3 10
    (list_to_map [("street_address", VStr "New St"); ("is_default", VBool true)])
    ({["street_address"]} ∪ {["is_default"]}) Fixtures.addresses =
    (Raise (HTTPException status.HTTP_404_NOT_FOUND "Address not found"),
     Fixtures.addresses)
  ∧ ∃ (s' : Session) (dto : gmap string Value),
      AddressService_rest.update_address 9 2 10
        (list_to_map [("street_address", VStr "New St"); ("is_default", VBool true)])
        ({["street_address"]} ∪ {["is_default"]}) Fixtures.addresses
        = (Ok dto, s')
      ∧ default_addresses 10 s' = [2%N].
Proof.
  assert (Hpk : pk_ok (rows Fixtures.addresses))
    by (apply pk_ok_decide; vm_compute; reflexivity).
  assert (Hfs : ∀ c : string,
            c ∈ ({["street_address"]} ∪ {["is_default"]} : gset string) →
            c ∈ AddressBase).
  { intros c Hc. apply elem_of_union in Hc as [Hc|Hc];
      apply elem_of_singleton in Hc as ->.
    - exact (bool_decide_eq_true_1 ("street_address" ∈ AddressBase) eq_refl).
    - exact (bool_decide_eq_true_1 ("is_default" ∈ AddressBase) eq_refl). }
  assert (Hset : truthy (attr (list_to_map [("street_address", VStr "New St");
                                           ("is_default", VBool true)])
                           "is_default") = true →
                 "is_default" ∈ ({["street_address"]} ∪ {["is_default"]}
                                 : gset string)).
  { intros _. apply elem_of_union. right. by apply elem_of_singleton. }
  split.
  - refine (proj1 (update_address_default_exclusive 9 3 10 _ _
                     Fixtures.addresses eq_refl Hpk Hfs Hset) _).
    intros r Hr.
    assert (r = Fixtures.address 3 20 false VNone) as ->
      by (apply (inj Some); rewrite <- Hr; reflexivity).
    right. vm_compute. discriminate.
  - destruct (proj2 (update_address_default_exclusive 9 2 10 _ _
                       Fixtures.addresses eq_refl Hpk Hfs Hset)
                (Fixtures.address 2 10 false VNone) eq_refl eq_refl eq_refl)
      as (s' & dto & Hrun & _ & _ & Hdef & _).
    exists s', dto. split; [exact Hrun |]. apply Hdef. reflexivity.
Defined.

(** ** User service and routes *)

Lemma get_user_by_id_eval (user_id : N) (s : Session) :
  pk_ok (rows s) →
  UserService_rest.get_user_by_id user_id s =
  (match rows s !! user_id with
   | Some r =>
       if is_none (attr r "deleted_at")
       then Ok (model_validate UserPublic s user_id)
       else Raise (HTTPException status.HTTP_404_NOT_FOUND "User not found")
   | None => Raise (HTTPException status.HTTP_404_NOT_FOUND "User not found")
   end, s).
Proof.
  intros Hpk. unfold UserService_rest.get_user_by_id; unfold_M.
  rewrite get_by_id by done.
  destruct (rows s !! user_id) as [r|]; [|done].
  rewrite base_query_User. by destruct (is_none (attr r "deleted_at")).
Qed.

Lemma soft_delete_gone (model : Model) (now : Z) (id : N) (s : Session) :
  hasattr model "deleted_at" = true → pk_ok (rows s) →
  (∀ r, rows s !! id = Some r → attr r "deleted_at" ≠ VNone) →
  BaseRepo.soft_delete model now id s =
  (Raise (HTTPException status.HTTP_404_NOT_FOUND
            (model_name model +:+ " not found")), s).
Proof.
  intros Hm Hpk Hr. unfold BaseRepo.soft_delete; unfold_M. rewrite Hm. simpl.
  rewrite get_by_id by done. unfold BaseRepo._base_query. rewrite Hm.
  destruct (rows s !! id) as [r|] eqn:Hrow; [|done].
  unfold where_, select, is_null. simpl.
  destruct (is_none (attr r "deleted_at")) eqn:Hd; [|done].
  apply is_none_true in Hd. by destruct (Hr r).
Qed.

Lemma get_user_by_email_live (email : Value) (s : Session) (k : N) :
  UserRepo.get_user_by_email email s = Ok (Some k) →
  ∃ r, rows s !! k = Some r ∧ attr r "email" = email
       ∧ attr r "deleted_at" = VNone.
Proof.
  unfold UserRepo.get_user_by_email. cbv zeta. set (q := where_ _ _).
  intros Hq.
  assert (k ∈ execute s q) as Hin.
  { destruct (execute s q) as [|k0 [|k1 l]]; simpl in Hq; try done.
    injection Hq as ->. apply elem_of_cons. by left. }
  apply elem_of_execute in Hin as (r & Hr & Hsel). exists r. split; [done |].
  unfold q, where_, select, col_eq, is_null in Hsel. simpl in Hsel.
  apply andb_true_iff in Hsel as [He Hd].
  apply bool_decide_eq_true in He. by apply is_none_true in Hd.
Qed.

(** X6. [delete_user] refuses an administrator's own id with 403 before
    looking the user up, so also for an id with no row; for another id it
    answers 404 when no live user has it and otherwise soft-deletes the
    user, who is then found neither by id nor by email while the row stays.
    [delete_user_me] refuses a user whose role is admin with 403, answers
    404 for a user that is already soft-deleted and otherwise soft-deletes
    the user. *)
Theorem delete_user_rules (now : Z) (user_id : N) (s : Session) :
  pending s = ∅ → pk_ok (rows s) →
  UserService_rest.delete_user now user_id (Some user_id) s =
    (Raise (HTTPException status.HTTP_403_FORBIDDEN
              "admin users are not allowed to delete themselves"), s)
  ∧ (∀ admin_id, admin_id ≠ user_id →
       (∀ r, rows s !! user_id = Some r → attr r "deleted_at" ≠ VNone) →
       UserService_rest.delete_user now user_id (Some admin_id) s =
       (Raise (HTTPException status.HTTP_404_NOT_FOUND "User not found"), s))
  ∧ (∀ admin_id r, admin_id ≠ user_id →
       rows s !! user_id = Some r → attr r "deleted_at" = VNone →
       ∃ s', UserService_rest.delete_user now user_id (Some admin_id) s
             = (Ok tt, s')
         ∧ pending s' = ∅
         ∧ rows s' !! user_id = Some (<["deleted_at" := VDatetime now]> r)
         ∧ (∀ k, k ≠ user_id → rows s' !! k = rows s !! k)
         ∧ UserService_rest.get_user_by_id user_id s' =
           (Raise (HTTPException status.HTTP_404_NOT_FOUND "User not found"), s')
         ∧ (∀ email, UserRepo.get_user_by_email email s' ≠ Ok (Some user_id)))
  ∧ (getattr s user_id "role" = VStr "admin" →
     UserService_rest.delete_user_me now user_id s =
     (Raise (HTTPException status.HTTP_403_FORBIDDEN
               "admin users are not allowed to delete themselves"), s))
  ∧ (getattr s user_id "role" ≠ VStr "admin" →
     (∀ r, rows s !! user_id = Some r → attr r "deleted_at" ≠ VNone) →
     UserService_rest.delete_user_me now user_id s =
     (Raise (HTTPException status.HTTP_404_NOT_FOUND "User not found"), s))
  ∧ (∀ r, getattr s user_id "role" ≠ VStr "admin" →
       rows s !! user_id = Some r → attr r "deleted_at" = VNone →
       ∃ s', UserService_rest.delete_user_me now user_id s = (Ok tt, s')
         ∧ rows s' !! user_id = Some (<["deleted_at" := VDatetime now]> r)
         ∧ (∀ k, k ≠ user_id → rows s' !! k = rows s !! k)).
Proof.
  intros Hclean Hpk.
  assert (Hm : hasattr User "deleted_at" = true) by reflexivity.
  split.
  { unfold UserService_rest.delete_user. by rewrite bool_decide_true. }
  split.
  { intros admin_id Hne Hgone. unfold UserService_rest.delete_user; unfold_M.
    rewrite bool_decide_false by congruence.
    rewrite get_by_id by done.
    destruct (rows s !! user_id) as [r|] eqn:Hr; [|done].
    rewrite base_query_User.
    destruct (is_none (attr r "deleted_at")) eqn:Hn; [|done].
    apply is_none_true in Hn. by destruct (Hgone r). }
  split.
  { intros admin_id r Hne Hr Hlive.
    set (r' := <["deleted_at" := VDatetime now]> r).
    set (s' := mkSession (<[user_id := r']> (rows s)) ∅).
    assert (Hpk' : pk_ok (rows s')).
    { apply pk_ok_insert; [done |]. unfold r'.
      rewrite attr_insert_ne by done. by apply Hpk. }
    exists s'. split.
    { unfold UserService_rest.delete_user; unfold_M.
      rewrite bool_decide_false by congruence.
      rewrite get_by_id, Hr, base_query_User, Hlive by done. simpl.
      by rewrite (soft_delete_run User now user_id s r). }
    split; [done |]. split; [apply lookup_insert_eq |].
    split; [intros k Hk; by apply lookup_insert_ne |].
    split.
    - rewrite get_user_by_id_eval by done. simpl. rewrite lookup_insert_eq.
      unfold r'. by rewrite attr_insert_eq.
    - intros email Hfound.
      apply get_user_by_email_live in Hfound as (r0 & Hr0 & _ & Hd).
      simpl in Hr0. rewrite lookup_insert_eq in Hr0. injection Hr0 as <-.
      unfold r' in Hd. by rewrite attr_insert_eq in Hd. }
  split.
  { intros Hrole. unfold UserService_rest.delete_user_me.
    by rewrite bool_decide_true. }
  split.
  { intros Hrole Hgone. unfold UserService_rest.delete_user_me; unfold_M.
    rewrite bool_decide_false by done.
    by rewrite (soft_delete_gone User now user_id s). }
  intros r Hrole Hr Hlive. eexists. split.
  { unfold UserService_rest.delete_user_me; unfold_M.
    rewrite bool_decide_false by done.
    by rewrite (soft_delete_run User now user_id s r). }
  split; [apply lookup_insert_eq |].
  intros k Hk. by apply lookup_insert_ne.
Qed.

Lemma delete_user_rules_witness :
  UserService_rest.delete_user 9 7 (Some 7%N) Fixtures.users =
    (Raise (HTTPException status.HTTP_403_FORBIDDEN
              "admin users are not allowed to delete themselves"),
     Fixtures.users)
  ∧ UserService_rest.delete_user 9 2 (Some 1%N) Fixtures.users =
    (Raise (HTTPException status.HTTP_404_NOT_FOUND "User not found"),
     Fixtures.users)
  ∧ ∃ s', UserService_rest.delete_user 9 3 (Some 1%N) Fixtures.users
          = (Ok tt, s')
      ∧ UserService_rest.get_user_by_id 3 s' =
        (Raise (HTTPException status.HTTP_404_NOT_FOUND "User not found"), s').
Proof.
  assert (Hpk : pk_ok (rows Fixtures.users))
    by (apply pk_ok_decide; vm_compute; reflexivity).
  split; [|split].
  - exact (proj1 (delete_user_rules 9 7 Fixtures.users eq_refl Hpk)).
  - refine (proj1 (proj2 (delete_user_rules 9 2 Fixtures.users eq_refl Hpk))
              1%N _ _); [discriminate |].
    intros r Hr.
    assert (r = Fixtures.user 2 "b@x.com" "$2b$pw12345678" true (VDatetime 5))
      as -> by (apply (inj Some); rewrite <- Hr; reflexivity).
    vm_compute. discriminate.
  - destruct (proj1 (proj2 (proj2 (delete_user_rules 9 3 Fixtures.users
                                     eq_refl Hpk)))
                1%N (Fixtures.user 3 "c@x.com" "$2b$pw12345678" false VNone))
      as (s' & Hrun & _ & _ & _ & Hget & _);
      [discriminate | reflexivity | reflexivity |].
    exists s'. split; [exact Hrun | exact Hget].
Defined.





(** ** Listing users by page *)







(** ** Passwords beyond 72 bytes *)

Lemma substring_append (n : nat) :
  ∀ p t : string, (n ≤ String.length p)%nat →
    String.substring 0 n (p +:+ t) = String.substring 0 n p.
Proof.
  induction n as [|n IH]; intros [|c p] t Hn; simpl in *; try lia.
  - by destruct t.
  - done.
  - f_equal. apply IH. lia.
Qed.

Lemma substring_full (p : string) :
  String.substring 0 (String.length p) p = p.
Proof. induction p as [|c p IH]; simpl; [done | by rewrite IH]. Qed.

Lemma length_append_ge (p t : string) :
  (String.length p ≤ String.length (p +:+ t))%nat.
Proof. induction p as [|c p IH]; simpl; lia. Qed.

Lemma truncate_append (password tail : string) :
  (72 ≤ String.length password)%nat →
  security.truncate (password +:+ tail) = security.truncate password.
Proof.
  intros Hlen. unfold security.truncate.
  pose proof (length_append_ge password tail) as Hge.
  assert (Hsub : String.substring 0 72 (password +:+ tail)
                 = String.substring 0 72 password)
    by (by apply substring_append).
  destruct (Nat.ltb_spec 72 (String.length (password +:+ tail))) as [Hl | Hl];
    destruct (Nat.ltb_spec 72 (String.length password)) as [Hp | Hp];
    try lia.
  - done.
  - rewrite Hsub. assert (String.length password = 72%nat) as <- by lia.
    apply substring_full.
  - assert (H72 : String.length (password +:+ tail) = 72%nat) by lia.
    assert (H72' : String.length password = 72%nat) by lia.
    rewrite <- (substring_full (password +:+ tail)), H72, Hsub, <- H72'.
    apply substring_full.
Qed.

(** X10. bcrypt reads 72 bytes, and [security.py] cuts the password there:
    a password of 72 bytes or more hashes and verifies as the same password
    with any further bytes appended, so [change_password] to such an
    extension of the current password is rejected with 400 "New password
    cannot be same as current" and changes nothing. *)
Theorem password_tail_ignored `{B : Bcrypt} (password tail : string) :
  (72 ≤ String.length password)%nat →
  (∀ salt, security.get_password_hash salt (password +:+ tail)
           = security.get_password_hash salt password)
  ∧ (∀ hashed, security.verify_password (password +:+ tail) hashed
               = security.verify_password password hashed)
  ∧ ∀ salt now user s,
      security.verify_password password (getattr s user "hashed_password")
        = true →
      UserService.change_password salt now user password (password +:+ tail) s
      = (Raise (HTTPException status.HTTP_400_BAD_REQUEST
                  "New password cannot be same as current"), s).
Proof.
  intros Hlen. pose proof (truncate_append password tail Hlen) as Ht.
  assert (Hv : ∀ hashed, security.verify_password (password +:+ tail) hashed
                         = security.verify_password password hashed).
  { intros hashed. unfold security.verify_password. by rewrite Ht. }
  split; [|split; [done |]].
  - intros salt. unfold security.get_password_hash. by rewrite Ht.
  - intros salt now user s Hold. unfold UserService.change_password.
    by rewrite Hv, Hold.
Qed.

Lemma password_tail_ignored_witness :
  let password :=
    "correct-horse-battery-staple-correct-horse-battery-staple-xxxxxxxxxxxxxx" in
  String.length password = 72%nat
  ∧ security.verify_password (H := Fixtures.bcrypt) (password +:+ "-and-more")
      (VStr (security.get_password_hash (H := Fixtures.bcrypt) "salt" password))
    = security.verify_password (H := Fixtures.bcrypt) password
        (VStr (security.get_password_hash (H := Fixtures.bcrypt) "salt" password)).
Proof.
  intros password. split; [reflexivity |].
  refine (proj1 (proj2 (password_tail_ignored (B := Fixtures.bcrypt)
                          password "-and-more" _)) _).
  vm_compute. lia.
Defined.

(** ** Logging in *)

Lemma get_user_by_email_none (email : Value) (s : Session) :
  (∀ k r, rows s !! k = Some r → attr r "deleted_at" = VNone →
          attr r "email" ≠ email) →
  UserRepo.get_user_by_email email s = Ok None.
Proof.
  intros Hno. unfold UserRepo.get_user_by_email. cbv zeta.
  set (q := where_ _ _).
  assert (execute s q = []) as ->; [|done].
  apply elem_of_nil_inv. intros k Hin.
  apply elem_of_execute in Hin as (r & Hr & Hsel).
  unfold q, where_, select, col_eq, is_null in Hsel. simpl in Hsel.
  apply andb_true_iff in Hsel as [He Hd].
  apply bool_decide_eq_true in He. apply is_none_true in Hd.
  by apply (Hno k r).
Qed.

Lemma Fixtures_tokens_number (p : positive) :
  Fixtures_tokens.number (Fixtures_tokens.digits p) = Some p.
Proof.
  induction p as [p IH | p IH |]; [| |done].
  - change (Fixtures_tokens.number (Fixtures_tokens.digits p~1))
      with (Fixtures_tokens.number (Fixtures_tokens.digits p)
              ≫= λ p, Some p~1%positive).
    by rewrite IH.
  - change (Fixtures_tokens.number (Fixtures_tokens.digits p~0))
      with (Fixtures_tokens.number (Fixtures_tokens.digits p)
              ≫= λ p, Some p~0%positive).
    by rewrite IH.
Qed.

Lemma Fixtures_tokens_sound :
  JwtSound Fixtures_tokens.jwt_encode Fixtures_tokens.jwt.
Proof.
  intros [sub exp]. simpl. rewrite Fixtures_tokens_number. simpl.
  by rewrite countable.decode_encode.
Qed.

Lemma log_in_found `{B : Bcrypt} `{E : JwtEncode}
    (now ACCESS_TOKEN_EXPIRE_MINUTES : Z) (username password : string)
    (s : Session) (user : N) (r : gmap string Value) :
  pending s = ∅ →
  UserRepo.get_user_by_email (VStr username) s = Ok (Some user) →
  rows s !! user = Some r →
  routes.log_in now ACCESS_TOKEN_EXPIRE_MINUTES username password s =
  if negb (security.verify_password password (attr r "hashed_password"))
  then Raise (HTTPException 401 "Invalid credentials")
  else if negb (truthy (attr r "is_active"))
  then Raise (HTTPException status.HTTP_400_BAD_REQUEST "Inactive user")
  else Ok (encode (mkTokenPayload (Some user)
                     (Some (now + ACCESS_TOKEN_EXPIRE_MINUTES * 60)%Z))).
Proof.
  intros Hclean Hfound Hr. unfold routes.log_in. cbv zeta. rewrite Hfound.
  rewrite !(getattr_clean _ _ _ _ Hclean Hr).
  unfold security_tokens.create_access_token.
  by destruct (negb (ACCESS_TOKEN_EXPIRE_MINUTES * 60 =? 0)%Z).
Qed.

Lemma guard_resolves_issued `{E : JwtEncode} `{J : Jwt} (s : Session)
    (user : N) (r : gmap string Value) (expire : option Z) :
  JwtSound E J → pending s = ∅ →
  rows s !! user = Some r → truthy (attr r "is_active") = true →
  deps.get_current_user (encode (mkTokenPayload (Some user) expire)) s
  = Ok user.
Proof.
  intros Hsound Hclean Hr Hactive.
  unfold deps.get_current_user. rewrite Hsound. simpl.
  unfold session_get. rewrite instance_clean, Hr by done. simpl.
  by rewrite (getattr_clean _ _ _ _ Hclean Hr), Hactive.
Qed.

(** X11. [POST /auth/login/access-token] on a fresh session.  An email with
    no live user and a wrong password get the same 401 "Invalid
    credentials" (a soft-deleted user cannot log in); the password is
    checked before [is_active], so 400 "Inactive user" is only seen with the
    right password.  Otherwise the token carries the user's id and expires
    [ACCESS_TOKEN_EXPIRE_MINUTES] minutes after the call, and with a codec
    that decodes what it issued the guard [get_current_user] resolves the
    token to that user.  No token is issued in any other case. *)
Theorem log_in_rules `{B : Bcrypt} `{E : JwtEncode} `{J : Jwt}
    (now ACCESS_TOKEN_EXPIRE_MINUTES : Z) (username password : string)
    (s : Session) :
  JwtSound E J → pending s = ∅ →
  let response :=
    routes.log_in now ACCESS_TOKEN_EXPIRE_MINUTES username password s in
  ((∀ k r, rows s !! k = Some r → attr r "deleted_at" = VNone →
           attr r "email" ≠ VStr username) →
   response = Raise (HTTPException 401 "Invalid credentials"))
  ∧ (∀ user r,
       UserRepo.get_user_by_email (VStr username) s = Ok (Some user) →
       rows s !! user = Some r →
       (security.verify_password password (attr r "hashed_password") = false →
        response = Raise (HTTPException 401 "Invalid credentials"))
       ∧ (security.verify_password password (attr r "hashed_password") = true →
          truthy (attr r "is_active") = false →
          response =
          Raise (HTTPException status.HTTP_400_BAD_REQUEST "Inactive user"))
       ∧ (security.verify_password password (attr r "hashed_password") = true →
          truthy (attr r "is_active") = true →
          ∃ token, response = Ok token
            ∧ decode token
              = Some (mkTokenPayload (Some user)
                        (Some (now + ACCESS_TOKEN_EXPIRE_MINUTES * 60)%Z))
            ∧ deps.get_current_user token s = Ok user))
  ∧ (∀ token, response = Ok token →
       ∃ user r, rows s !! user = Some r
         ∧ attr r "email" = VStr username
         ∧ attr r "deleted_at" = VNone
         ∧ security.verify_password password (attr r "hashed_password") = true
         ∧ truthy (attr r "is_active") = true).
Proof.
  intros Hsound Hclean response. unfold response.
  split; [|split].
  - intros Hno. unfold routes.log_in. cbv zeta.
    by rewrite get_user_by_email_none.
  - intros user r Hfound Hr.
    rewrite (log_in_found _ _ _ _ _ _ _ Hclean Hfound Hr).
    split; [|split].
    + by intros ->.
    + by intros -> ->.
    + intros -> Hactive. rewrite Hactive. simpl. eexists.
      split; [done |]. split; [apply Hsound |].
      by apply (guard_resolves_issued s user r).
  - intros token. unfold routes.log_in. cbv zeta.
    destruct (UserRepo.get_user_by_email (VStr username) s)
      as [[user|]|e] eqn:Hfound; try done.
    destruct (get_user_by_email_live _ _ _ Hfound) as (r & Hr & Hemail & Hlive).
    rewrite !(getattr_clean _ _ _ _ Hclean Hr).
    destruct (security.verify_password password (attr r "hashed_password"))
      eqn:Hv; [|done].
    destruct (truthy (attr r "is_active")) eqn:Ha; [|done].
    intros _. by exists user, r.
Qed.

Lemma log_in_rules_witness :
  routes.log_in (H := Fixtures.bcrypt) (H0 := Fixtures_tokens.jwt_encode)
    0 30 "nobody@x.com" "pw12345678" Fixtures.users
  = Raise (HTTPException 401 "Invalid credentials")
  ∧ routes.log_in (H := Fixtures.bcrypt) (H0 := Fixtures_tokens.jwt_encode)
      0 30 "a@x.com" "wrong-password" Fixtures.users
    = Raise (HTTPException 401 "Invalid credentials")
  ∧ routes.log_in (H := Fixtures.bcrypt) (H0 := Fixtures_tokens.jwt_encode)
      0 30 "c@x.com" "pw12345678" Fixtures.users
    = Raise (HTTPException status.HTTP_400_BAD_REQUEST "Inactive user")
  ∧ ∃ token,
      routes.log_in (H := Fixtures.bcrypt) (H0 := Fixtures_tokens.jwt_encode)
        0 30 "a@x.com" "pw12345678" Fixtures.users = Ok token
      ∧ decode (Jwt := Fixtures_tokens.jwt) token
        = Some (mkTokenPayload (Some 1%N) (Some (0 + 30 * 60)%Z))
      ∧ deps.get_current_user (H := Fixtures_tokens.jwt) token Fixtures.users
        = Ok 1%N.
Proof.
  pose proof (λ username password,
    log_in_rules (B := Fixtures.bcrypt) (E := Fixtures_tokens.jwt_encode)
      (J := Fixtures_tokens.jwt) 0 30 username password Fixtures.users
      Fixtures_tokens_sound eq_refl) as Hrules.
  cbv zeta in Hrules.
  split; [|split; [|split]].
  - apply (Hrules "nobody@x.com" "pw12345678"). intros k r Hr _.
    unfold Fixtures.users, rows in Hr. apply elem_of_list_to_map_2 in Hr.
    repeat (apply elem_of_cons in Hr as [[= -> ->] | Hr]);
      [| | | by apply elem_of_nil in Hr]; vm_compute; discriminate.
  - refine (proj1 (proj1 (proj2 (Hrules "a@x.com" "wrong-password")) 1%N
                     (Fixtures.user 1 "a@x.com" "$2b$pw12345678" true VNone)
                     _ eq_refl) _);
      vm_compute; reflexivity.
  - refine (proj1 (proj2 (proj1 (proj2 (Hrules "c@x.com" "pw12345678")) 3%N
                     (Fixtures.user 3 "c@x.com" "$2b$pw12345678" false VNone)
                     _ eq_refl)) _ _);
      vm_compute; reflexivity.
  - refine (proj2 (proj2 (proj1 (proj2 (Hrules "a@x.com" "pw12345678")) 1%N
                     (Fixtures.user 1 "a@x.com" "$2b$pw12345678" true VNone)
                     _ eq_refl)) _ _);
      vm_compute; reflexivity.
Defined.

(** ** Registration, then logging in *)





(** ** Updating a user *)





(** ** The owner's listing and single reads *)

(** X14. [list_user_addresses] and [get_address] agree on a fresh session:
    an address is in the owner's listing exactly when [get_address] returns
    it for that owner, every address listed carries the owner's id, another
    owner's or a soft-deleted address is never listed, and [count] is the
    number of live rows of the owner. *)
Theorem listing_agrees_with_get_address (owner_id : N) (s : Session) :
  pending s = ∅ → pk_ok (rows s) →
  let listing := AddressService_rest.list_user_addresses owner_id s in
  (∀ dto, dto ∈ schemas.addresses listing ↔
          ∃ address_id,
            AddressService.get_address address_id owner_id s = (Ok dto, s))
  ∧ (∀ dto, dto ∈ schemas.addresses listing →
            attr dto "owner_id" = VUuid owner_id)
  ∧ (∀ k r, rows s !! k = Some r →
            (attr r "owner_id" ≠ VUuid owner_id) ∨ (attr r "deleted_at" ≠ VNone) →
            ∀ dto, dto ∈ schemas.addresses listing → attr dto "id" ≠ VUuid k)
  ∧ schemas.count listing
    = size (filter (λ kr : N * gmap string Value,
                      attr kr.2 "owner_id" = VUuid owner_id
                      ∧ attr kr.2 "deleted_at" = VNone) (rows s)).
Proof.
  intros Hclean Hpk listing. unfold listing, AddressService_rest.list_user_addresses.
  cbv zeta. cbn [schemas.addresses schemas.count].
  assert (Hdto : ∀ k r c, rows s !! k = Some r → c ∈ AddressPublic →
            attr (model_validate AddressPublic s k) c = attr r c).
  { intros k r c Hr Hc. rewrite attr_model_validate by done.
    by apply getattr_clean. }
  assert (Hid : "id" ∈ AddressPublic)
    by exact (bool_decide_eq_true_1 ("id" ∈ AddressPublic) eq_refl).
  assert (Hown : "owner_id" ∈ AddressPublic)
    by exact (bool_decide_eq_true_1 ("owner_id" ∈ AddressPublic) eq_refl).
  split; [|split; [|split]].
  - intros dto. rewrite list_elem_of_fmap. split.
    + intros (k & -> & Hin). exists k.
      apply elem_of_get_by_owner in Hin as (r & Hr & Ho & Hd).
      rewrite get_address_eval, Hr by done.
      rewrite (getattr_clean _ _ _ _ Hclean Hr), Ho, Hd.
      by rewrite bool_decide_true.
    + intros (k & Hget). rewrite get_address_eval in Hget by done.
      destruct (rows s !! k) as [r|] eqn:Hr; [|done].
      rewrite (getattr_clean _ _ _ _ Hclean Hr) in Hget.
      destruct (is_none (attr r "deleted_at")) eqn:Hd; [|done].
      destruct (bool_decide (attr r "owner_id" = VUuid owner_id)) eqn:Ho;
        [|done].
      simpl in Hget. injection Hget as <-. exists k. split; [done |].
      apply elem_of_get_by_owner. exists r.
      apply is_none_true in Hd. apply bool_decide_eq_true in Ho. done.
  - intros dto Hin. apply list_elem_of_fmap in Hin as (k & -> & Hin).
    apply elem_of_get_by_owner in Hin as (r & Hr & Ho & Hd).
    by rewrite (Hdto k r).
  - intros k r Hr Hnot dto Hin Heq.
    apply list_elem_of_fmap in Hin as (k' & -> & Hin).
    apply elem_of_get_by_owner in Hin as (r' & Hr' & Ho & Hd).
    rewrite (Hdto k' r') in Heq by done.
    rewrite (Hpk k' r' Hr') in Heq. injection Heq as ->.
    rewrite Hr in Hr'. injection Hr' as <-. tauto.
  - rewrite length_map. unfold AddressRepo.get_by_owner. cbv zeta.
    rewrite <- execute_count_length. unfold execute_count. f_equal.
    apply map_filter_ext. intros k r _. cbn [snd].
    unfold where_, select, col_eq, is_null. simpl.
    by rewrite andb_True, bool_decide_spec, Is_true_true, is_none_true.
Qed.

Lemma listing_agrees_with_get_address_witness :
  let listing := AddressService_rest.list_user_addresses 10 Fixtures.addresses in
  schemas.count listing = 2%nat
  ∧ (model_validate AddressPublic Fixtures.addresses 2 ∈ schemas.addresses listing)
  ∧ attr (model_validate AddressPublic Fixtures.addresses 2) "owner_id"
    = VUuid 10.
Proof.
  intros listing.
  destruct (listing_agrees_with_get_address 10 Fixtures.addresses eq_refl)
    as (Hiff & Howner & _ & Hcount).
  - apply pk_ok_decide. vm_compute. reflexivity.
  - fold listing in Hiff, Howner, Hcount.
    assert (Hin : model_validate AddressPublic Fixtures.addresses 2
                  ∈ schemas.addresses listing).
    { apply Hiff. exists 2%N.
      rewrite get_address_eval by (apply pk_ok_decide; vm_compute; reflexivity).
      reflexivity. }
    split; [|split; [exact Hin | by apply Howner]].
    rewrite Hcount. vm_compute. reflexivity.
Defined.

(** ** The routes behind a role guard *)

Lemma require_roles_admin (current_user : N) (s : Session) :
  deps_roles.CurrentAdmin current_user s =
  if bool_decide (getattr s current_user "role" = VStr "admin")
  then Ok current_user
  else Raise (HTTPException status.HTTP_403_FORBIDDEN "Not enough permissions").
Proof.
  unfold deps_roles.CurrentAdmin, deps_roles.require_roles.
  destruct (decide (getattr s current_user "role" = VStr "admin")) as [Hr | Hr].
  - rewrite !bool_decide_true; [done.. |]. rewrite Hr.
    apply elem_of_cons. by left.
  - rewrite !bool_decide_false; [done.. |].
    intros Hin. apply elem_of_cons in Hin as [Hin | Hin]; [done |].
    by apply elem_of_nil in Hin.
Qed.

Lemma delete_user_other (now : Z) (user_id admin_id : N) (s : Session) :
  pending s = ∅ → pk_ok (rows s) → admin_id ≠ user_id →
  UserService_rest.delete_user now user_id (Some admin_id) s =
  match rows s !! user_id with
  | Some r =>
      if is_none (attr r "deleted_at")
      then (Ok tt,
            mkSession (<[user_id := <["deleted_at" := VDatetime now]> r]> (rows s))
              ∅)
      else (Raise (HTTPException status.HTTP_404_NOT_FOUND "User not found"), s)
  | None => (Raise (HTTPException status.HTTP_404_NOT_FOUND "User not found"), s)
  end.
Proof.
  intros Hclean Hpk Hne. unfold UserService_rest.delete_user; unfold_M.
  rewrite bool_decide_false by congruence.
  rewrite get_by_id by done.
  destruct (rows s !! user_id) as [r|] eqn:Hr; [|done].
  rewrite base_query_User.
  destruct (is_none (attr r "deleted_at")) eqn:Hn; [|done].
  apply is_none_true in Hn.
  by rewrite (soft_delete_run User now user_id s r).
Qed.

(** X15. The user routes behind a role guard, for a token the guard
    [get_current_user] resolves to [caller] on a fresh session.  A caller
    who is not an administrator gets 403 "Not enough permissions" from
    [PATCH] and [DELETE /users/{user_id}] whatever the target, and nothing
    changes; the listing refuses a caller who is neither administrator nor
    manager.  An administrator cannot delete the own account through either
    delete route.  Whenever [DELETE /users/{user_id}] succeeds, the caller is
    an administrator, the target is another, live user, and the target's
    row is the only one that changes. *)
Theorem admin_routes_guarded `{J : Jwt} (token : string) (caller : N)
    (s : Session) :
  pending s = ∅ → pk_ok (rows s) →
  deps.get_current_user token s = Ok caller →
  (getattr s caller "role" ≠ VStr "admin" →
   ∀ now user_id user_in,
     routes_users.delete_user now user_id token s
     = (Raise (HTTPException status.HTTP_403_FORBIDDEN "Not enough permissions"),
        s)
     ∧ routes_users.update_user now user_id user_in token s
       = (Raise (HTTPException status.HTTP_403_FORBIDDEN "Not enough permissions"),
          s))
  ∧ (getattr s caller "role" ≠ VStr "admin" →
     getattr s caller "role" ≠ VStr "manager" →
     ∀ page page_size is_active is_verified role,
       routes_users.list_users token page page_size is_active is_verified role s
       = (Raise (HTTPException status.HTTP_403_FORBIDDEN "Not enough permissions"),
          s))
  ∧ (getattr s caller "role" = VStr "admin" →
     ∀ now,
       routes_users.delete_user now caller token s
       = (Raise (HTTPException status.HTTP_403_FORBIDDEN
                   "admin users are not allowed to delete themselves"), s)
       ∧ routes_users.delete_user_me now token s
         = (Raise (HTTPException status.HTTP_403_FORBIDDEN
                     "admin users are not allowed to delete themselves"), s))
  ∧ (∀ now user_id s',
       routes_users.delete_user now user_id token s = (Ok tt, s') →
       getattr s caller "role" = VStr "admin" ∧ user_id ≠ caller
       ∧ ∃ r, rows s !! user_id = Some r ∧ attr r "deleted_at" = VNone
           ∧ rows s' !! user_id = Some (<["deleted_at" := VDatetime now]> r)
           ∧ ∀ k, k ≠ user_id → rows s' !! k = rows s !! k).
Proof.
  intros Hclean Hpk Hcaller. split; [|split; [|split]].
  - intros Hrole now user_id user_in.
    unfold routes_users.delete_user, routes_users.update_user; unfold_M.
    by rewrite Hcaller, require_roles_admin, bool_decide_false.
  - intros Hadmin Hmanager page page_size is_active is_verified role.
    unfold routes_users.list_users; unfold_M. rewrite Hcaller.
    unfold deps_roles.CurrentAdminOrManager, deps_roles.require_roles.
    rewrite bool_decide_false; [done |]. intros Hin.
    repeat (apply elem_of_cons in Hin as [Hin | Hin]); try done.
    by apply elem_of_nil in Hin.
  - intros Hrole now.
    unfold routes_users.delete_user, routes_users.delete_user_me; unfold_M.
    rewrite Hcaller, require_roles_admin, bool_decide_true by done.
    unfold UserService_rest.delete_user, UserService_rest.delete_user_me.
    by rewrite !bool_decide_true.
  - intros now user_id s'. unfold routes_users.delete_user; unfold_M.
    rewrite Hcaller, require_roles_admin.
    destruct (decide (getattr s caller "role" = VStr "admin")) as [Hrole | Hrole];
      [|by rewrite bool_decide_false].
    rewrite bool_decide_true by done.
    destruct (decide (caller = user_id)) as [-> | Hne].
    { unfold UserService_rest.delete_user. by rewrite bool_decide_true. }
    rewrite delete_user_other by done.
    destruct (rows s !! user_id) as [r|] eqn:Hr; [|done].
    destruct (is_none (attr r "deleted_at")) eqn:Hd; [|done].
    intros [= <-]. split; [done |]. split; [done |]. exists r.
    split; [done |]. split; [by apply is_none_true |].
    split; [apply lookup_insert_eq |].
    intros k Hk. by apply lookup_insert_ne.
Qed.

Lemma admin_routes_guarded_witness :
  routes_users.delete_user (H := Fixtures.jwt) 9 3 "user-2" Fixtures_roles.users
  = (Raise (HTTPException status.HTTP_403_FORBIDDEN "Not enough permissions"),
     Fixtures_roles.users)
  ∧ routes_users.list_users (H := Fixtures.jwt) "user-3" 1 20 VNone VNone VNone
      Fixtures_roles.users
    = (Raise (HTTPException status.HTTP_403_FORBIDDEN "Not enough permissions"),
       Fixtures_roles.users)
  ∧ routes_users.delete_user (H := Fixtures.jwt) 9 1 "user-1" Fixtures_roles.users
    = (Raise (HTTPException status.HTTP_403_FORBIDDEN
                "admin users are not allowed to delete themselves"),
       Fixtures_roles.users)
  ∧ routes_users.delete_user_me (H := Fixtures.jwt) 9 "user-1"
      Fixtures_roles.users
    = (Raise (HTTPException status.HTTP_403_FORBIDDEN
                "admin users are not allowed to delete themselves"),
       Fixtures_roles.users).
Proof.
  assert (Hpk : pk_ok (rows Fixtures_roles.users))
    by (apply pk_ok_decide; vm_compute; reflexivity).
  pose proof (λ token caller,
    admin_routes_guarded (J := Fixtures.jwt) token caller Fixtures_roles.users
      eq_refl Hpk) as Hrules.
  split; [|split; [|split]].
  - refine (proj1 (proj1 (Hrules "user-2" 2%N _) _ 9%Z 3%N (DictIn ∅)));
      [vm_compute; reflexivity | vm_compute; discriminate].
  - refine (proj1 (proj2 (Hrules "user-3" 3%N _)) _ _ 1%Z 20%Z VNone VNone VNone);
      [vm_compute; reflexivity | vm_compute; discriminate..].
  - refine (proj1 (proj1 (proj2 (proj2 (Hrules "user-1" 1%N _))) _ 9%Z));
      vm_compute; reflexivity.
  - refine (proj2 (proj1 (proj2 (proj2 (Hrules "user-1" 1%N _))) _ 9%Z));
      vm_compute; reflexivity.
Defined.

(** ** Looking a user up by email *)



(** ** Updating the own account *)



(** ** The owner's default address *)

Lemma get_default_selects (owner_id : N) (s : Session) :
  pending s = ∅ →
  (∀ k r, rows s !! k = Some r → ∃ b, attr r "is_default" = VBool b) →
  execute s (where_ (where_ (where_ select (is_null "deleted_at"))
                            (col_eq "owner_id" (VUuid owner_id)))
                    (col_true "is_default"))
  ≡ₚ default_addresses owner_id s.
Proof.
  intros Hclean Hbool. apply NoDup_Permutation;
    [apply NoDup_execute | apply NoDup_default_addresses |].
  intros k. rewrite elem_of_execute, elem_of_default_addresses by done.
  unfold where_, select, is_null, col_eq, col_true. simpl.
  split; intros (r & Hr & H); exists r; (split; [done |]).
  - apply andb_true_iff in H as [H Hd]. apply andb_true_iff in H as [Hl Ho].
    apply bool_decide_eq_true in Hd, Ho. apply is_none_true in Hl.
    by rewrite Hd.
  - destruct H as (Ho & Hl & Ht). destruct (Hbool k r Hr) as [b Hb].
    rewrite Hb in Ht. simpl in Ht. subst b.
    rewrite Hl, Ho, Hb. simpl. by rewrite !bool_decide_true.
Qed.

Lemma get_default_two (owner_id a b : N) (s : Session) :
  pending s = ∅ →
  (∀ k r, rows s !! k = Some r → ∃ b, attr r "is_default" = VBool b) →
  a ≠ b → a ∈ default_addresses owner_id s →
  b ∈ default_addresses owner_id s →
  AddressRepo.get_default owner_id s = Raise MultipleResultsFound.
Proof.
  intros Hclean Hbool Hne Hina Hinb.
  pose proof (get_default_selects owner_id s Hclean Hbool) as Hperm.
  unfold AddressRepo.get_default. cbv zeta.
  set (l := execute s _) in *.
  rewrite <- Hperm in Hina, Hinb.
  destruct l as [|k [|k' l']]; [by apply elem_of_nil in Hina | | done].
  apply list_elem_of_singleton in Hina, Hinb. congruence.
Qed.

(** X18. [get_default] on a fresh session whose [is_default] column holds
    booleans: it answers [None] when no live address of the owner is
    default, the address when exactly one is, and raises
    [MultipleResultsFound] as soon as two live addresses of the owner are
    default, which is the case after [create_address] with
    [is_default=True] for an owner who has a default.  What it returns is a
    live default address of the owner. *)
Theorem get_default_by_number (owner_id : N) (s : Session) :
  pending s = ∅ →
  (∀ k r, rows s !! k = Some r → ∃ b, attr r "is_default" = VBool b) →
  (default_addresses owner_id s = [] →
   AddressRepo.get_default owner_id s = Ok None)
  ∧ (∀ a, default_addresses owner_id s = [a] →
          AddressRepo.get_default owner_id s = Ok (Some a))
  ∧ (∀ a b, a ≠ b → a ∈ default_addresses owner_id s →
            b ∈ default_addresses owner_id s →
            AddressRepo.get_default owner_id s = Raise MultipleResultsFound)
  ∧ (∀ a, AddressRepo.get_default owner_id s = Ok (Some a) →
          ∃ r, rows s !! a = Some r ∧ attr r "owner_id" = VUuid owner_id
               ∧ attr r "deleted_at" = VNone
               ∧ attr r "is_default" = VBool true)
  ∧ (∀ new_id created_at updated_at address_in a s' dto,
       rows s !! new_id = None →
       (∀ c, is_Some (address_in !! c) ↔ c ∈ AddressBase) →
       attr address_in "is_default" = VBool true →
       a ∈ default_addresses owner_id s →
       AddressService_rest.create_address new_id created_at updated_at
         owner_id address_in s = (Ok dto, s') →
       AddressRepo.get_default owner_id s' = Raise MultipleResultsFound).
Proof.
  intros Hclean Hbool.
  pose proof (get_default_selects owner_id s Hclean Hbool) as Hperm.
  split; [|split; [|split; [|split]]].
  - intros Hnone. unfold AddressRepo.get_default. cbv zeta.
    set (l := execute s _) in *. rewrite Hnone in Hperm.
    apply Permutation_nil_r in Hperm. by rewrite Hperm.
  - intros a Ha. unfold AddressRepo.get_default. cbv zeta.
    set (l := execute s _) in *. rewrite Ha in Hperm.
    apply Permutation_singleton_r in Hperm. by rewrite Hperm.
  - intros a b. by apply get_default_two.
  - intros a Hget. unfold AddressRepo.get_default in Hget. cbv zeta in Hget.
    set (l := execute s _) in *.
    assert (a ∈ l) as Hin.
    { destruct l as [|k [|k' l']]; simpl in Hget; try done.
      injection Hget as ->. apply elem_of_cons. by left. }
    rewrite Hperm in Hin.
    apply elem_of_default_addresses in Hin as (r & Hr & Ho & Hl & Ht);
      [|done].
    exists r. destruct (Hbool a r Hr) as [b Hb].
    rewrite Hb in Ht. simpl in Ht. subst b. done.
  - intros new_id created_at updated_at address_in a s' dto Hfresh Hwf Hflag Ha.
    destruct (create_address_run new_id created_at updated_at owner_id
                address_in s) as (s1 & Hrun & Hclean1 & Hrows).
    destruct (Address_init_attr new_id created_at updated_at owner_id
                address_in Hwf) as (Howner & Hid & Hdel & Hdef).
    unfold AddressService_rest.create_address; unfold_M. rewrite Hrun.
    intros [= _ <-].
    assert (Hold : ∀ k, k ≠ new_id → rows s1 !! k = rows s !! k).
    { intros k Hk. by rewrite Hrows, decide_False, instance_clean. }
    assert (Hnew : rows s1 !! new_id
                   = Some (schemas.Address_init new_id created_at updated_at
                             (<["owner_id" := VUuid owner_id]> address_in)))
      by (by rewrite Hrows, decide_True).
    apply elem_of_default_addresses in Ha as (r & Hr & Ho & Hl & Ht); [|done].
    assert (Hne : a ≠ new_id) by (intros ->; by rewrite Hfresh in Hr).
    apply (get_default_two owner_id a new_id); try done.
    + intros k r'. destruct (decide (k = new_id)) as [-> | Hk].
      * rewrite Hnew. intros [= <-]. exists true. by rewrite Hdef.
      * rewrite Hold by done. apply Hbool.
    + apply elem_of_default_addresses; [done |]. exists r.
      by rewrite Hold.
    + apply elem_of_default_addresses; [done |]. eexists. split; [exact Hnew |].
      by rewrite Howner, Hdel, Hdef, Hflag.
Qed.

Lemma get_default_by_number_witness :
  AddressRepo.get_default 20 Fixtures.addresses = Ok None
  ∧ AddressRepo.get_default 10 Fixtures.addresses = Ok (Some 1%N).
Proof.
  assert (Hbool : ∀ k r, rows Fixtures.addresses !! k = Some r →
                         ∃ b, attr r "is_default" = VBool b).
  { intros k r Hr. unfold Fixtures.addresses, rows in Hr.
    apply elem_of_list_to_map_2 in Hr.
    repeat (apply elem_of_cons in Hr as [[= -> ->] | Hr]);
      [| | | | by apply elem_of_nil in Hr]; eexists; reflexivity. }
  split.
  - refine (proj1 (get_default_by_number 20 Fixtures.addresses eq_refl Hbool) _).
    vm_compute. reflexivity.
  - refine (proj1 (proj2 (get_default_by_number 10 Fixtures.addresses eq_refl
                            Hbool)) 1%N _).
    vm_compute. reflexivity.
Defined.
